(** * Substrate / Sidecar comparison tester: a shallow embedding

    The Python script [substrate-sidecar-tests.py] fetches the same chain
    data from a Sidecar HTTP API and from a Substrate node, and compares
    them field by field.  This file embeds the script's functions in Rocq
    and states its behaviour as theorems.

    Modelling choices.
    - A fetched payload is a [json] value, the Python object that
      [response.json()] or the RPC client hands back.  JSON numbers are
      integers ([Z]); payloads with fractional numbers are outside the
      model.  An object is an association list read through its first
      binding of a key; it denotes a Python dict when its keys are
      distinct.
    - A [string] is a sequence of code points below 256.  The limit that
      recent interpreters put on the length of a decimal literal given to
      [int()] is not modelled.
    - A Python exception is the [Raise] branch of [result].
    - The outside world (HTTP server, node connection, SCALE decoder,
      clock) is an [Environment] of functions of the history of external
      calls so far; every external call is appended to that history, the
      [trace].
    - Logger calls only format text and never change control flow; they
      are left out. *)

From Stdlib Require Import List ZArith String Ascii Bool Lia Arith.
From Stdlib Require Import DecimalString.
From Stdlib Require DecimalZ DecimalPos.
Import ListNotations.
Open Scope string_scope.
Open Scope Z_scope.

Set Implicit Arguments.
Set Warnings "-register-all".

(** ** Python values and exceptions *)

Inductive json : Type :=
| JNull
| JBool (b : bool)
| JInt (z : Z)
| JStr (s : string)
| JArr (items : list json)
| JObj (fields : list (string * json)).

Inductive exn : Type :=
| TypeError
| KeyError
| IndexError
| AttributeError
| ValueError
| ExternalError (msg : string).

Inductive result (A : Type) : Type :=
| Ok (a : A)
| Raise (e : exn).
Arguments Ok {A} a.
Arguments Raise {A} e.

Definition rbind {A B} (r : result A) (k : A -> result B) : result B :=
  match r with
  | Ok a => k a
  | Raise e => Raise e
  end.

Declare Scope result_scope.
Delimit Scope result_scope with res.
Notation "x <-- c ;; k" := (rbind c (fun x => k))
  (at level 61, c at next level, right associativity) : result_scope.

(** ** Python builtins used by the script *)

Module Py.

(** [type(v).__name__], as it appears in exception messages. *)
Definition type_name (v : json) : string :=
  match v with
  | JNull => "NoneType"
  | JBool _ => "bool"
  | JInt _ => "int"
  | JStr _ => "str"
  | JArr _ => "list"
  | JObj _ => "dict"
  end.

(** [bool(v)]. *)
Definition truthy (v : json) : bool :=
  match v with
  | JNull => false
  | JBool b => b
  | JInt z => negb (z =? 0)
  | JStr s => negb (s =? "")%string
  | JArr l => match l with [] => false | _ => true end
  | JObj l => match l with [] => false | _ => true end
  end.

Fixpoint lookup (k : string) (fields : list (string * json)) : option json :=
  match fields with
  | [] => None
  | (k', v) :: rest => if (k =? k')%string then Some v else lookup k rest
  end.

(** [d.get(k, default)]: only a dict has the method. *)
Definition get_default (d : json) (k : string) (default : json) : result json :=
  match d with
  | JObj fields =>
      match lookup k fields with
      | Some v => Ok v
      | None => Ok default
      end
  | _ => Raise AttributeError
  end.

(** [d.get(k)]. *)
Definition get (d : json) (k : string) : result json :=
  get_default d k JNull.

(** [v[k]] with a string key. *)
Definition getitem (v : json) (k : string) : result json :=
  match v with
  | JObj fields =>
      match lookup k fields with
      | Some x => Ok x
      | None => Raise KeyError
      end
  | _ => Raise TypeError
  end.

Definition chars (s : string) : list json :=
  map (fun c => JStr (String c EmptyString)) (list_ascii_of_string s).

(** [v[i]] with an index [i >= 0]. *)
Definition getindex (v : json) (i : nat) : result json :=
  match v with
  | JArr items =>
      match nth_error items i with
      | Some x => Ok x
      | None => Raise IndexError
      end
  | JStr s =>
      match nth_error (chars s) i with
      | Some x => Ok x
      | None => Raise IndexError
      end
  | JObj _ => Raise KeyError
  | _ => Raise TypeError
  end.

(** [len(v)]. *)
Definition len (v : json) : result Z :=
  match v with
  | JArr items => Ok (Z.of_nat (List.length items))
  | JStr s => Ok (Z.of_nat (String.length s))
  | JObj fields => Ok (Z.of_nat (List.length fields))
  | _ => Raise TypeError
  end.

(** The elements a [for] loop over [v] visits. *)
Definition iter (v : json) : result (list json) :=
  match v with
  | JArr items => Ok items
  | JStr s => Ok (chars s)
  | JObj fields => Ok (map (fun kv => JStr (fst kv)) fields)
  | _ => Raise TypeError
  end.

(** [str.lower()] on one code point below 256: the capital letters are
    A-Z and the Latin-1 capitals 0xC0-0xDE without the sign 0xD7. *)
Definition lower_char (c : ascii) : ascii :=
  let n := nat_of_ascii c in
  if ((65 <=? n) && (n <=? 90))%nat then ascii_of_nat (n + 32)
  else if ((192 <=? n) && (n <=? 222) && negb (n =? 215))%nat
       then ascii_of_nat (n + 32)
       else c.

Fixpoint lower_str (s : string) : string :=
  match s with
  | EmptyString => EmptyString
  | String c rest => String (lower_char c) (lower_str rest)
  end.

(** [s.replace("_", "")]. *)
Fixpoint strip_underscores (s : string) : string :=
  match s with
  | EmptyString => EmptyString
  | String c rest =>
      if (c =? "_")%char then strip_underscores rest
      else String c (strip_underscores rest)
  end.

Definition lower (v : json) : result json :=
  match v with
  | JStr s => Ok (JStr (lower_str s))
  | _ => Raise AttributeError
  end.

Definition replace_underscores (v : json) : result json :=
  match v with
  | JStr s => Ok (JStr (strip_underscores s))
  | _ => Raise AttributeError
  end.

(** [str(z)] and [f"{z}"] for an integer. *)
Definition str_of_Z (z : Z) : string :=
  NilZero.string_of_int (Z.to_int z).

(** Whitespace that [int()] strips from both ends of its argument. *)
Definition is_space (c : ascii) : bool :=
  let n := nat_of_ascii c in
  ((9 <=? n) && (n <=? 13) || (28 <=? n) && (n <=? 32)
   || (n =? 133) || (n =? 160))%nat.

Fixpoint lstrip (l : list ascii) : list ascii :=
  match l with
  | c :: rest => if is_space c then lstrip rest else l
  | [] => []
  end.

Definition strip (l : list ascii) : list ascii :=
  rev (lstrip (rev (lstrip l))).

Definition digit_value (c : ascii) : option Z :=
  let n := nat_of_ascii c in
  if ((48 <=? n) && (n <=? 57))%nat then Some (Z.of_nat (n - 48))
  else if ((97 <=? n) && (n <=? 102))%nat then Some (Z.of_nat (n - 87))
  else if ((65 <=? n) && (n <=? 70))%nat then Some (Z.of_nat (n - 55))
  else None.

(** Digits of a literal in [base], most significant first, with single
    underscores allowed between digits.  [need] says that a digit must
    come next (at the start, and after an underscore). *)
Fixpoint parse_digits (base : Z) (need : bool) (acc : Z) (l : list ascii)
  : option Z :=
  match l with
  | [] => if need then None else Some acc
  | c :: rest =>
      if (c =? "_")%char then
        if need then None else parse_digits base true acc rest
      else
        match digit_value c with
        | Some d =>
            if d <? base then parse_digits base false (acc * base + d) rest
            else None
        | None => None
        end
  end.

Definition split_sign (l : list ascii) : Z * list ascii :=
  match l with
  | c :: rest =>
      if (c =? "-")%char then (-1, rest)
      else if (c =? "+")%char then (1, rest)
      else (1, l)
  | [] => (1, [])
  end.

Definition of_option {A} (o : option A) (e : exn) : result A :=
  match o with
  | Some a => Ok a
  | None => Raise e
  end.

(** [int(s)] for a string. *)
Definition int_of_string (s : string) : result Z :=
  let '(sign, body) := split_sign (strip (list_ascii_of_string s)) in
  of_option (option_map (Z.mul sign) (parse_digits 10 true 0 body)) ValueError.

(** [int(s, 16)] for a string: an optional [0x] may precede the digits,
    and an underscore may follow it. *)
Definition int_of_hex_string (s : string) : result Z :=
  let '(sign, body) := split_sign (strip (list_ascii_of_string s)) in
  let parsed :=
    match body with
    | z :: x :: rest =>
        if ((z =? "0") && ((x =? "x") || (x =? "X")))%char then
          match rest with
          | u :: rest' =>
              if (u =? "_")%char then parse_digits 16 true 0 rest'
              else parse_digits 16 true 0 rest
          | [] => None
          end
        else parse_digits 16 true 0 body
    | _ => parse_digits 16 true 0 body
    end in
  of_option (option_map (Z.mul sign) parsed) ValueError.

(** [int(v)]. *)
Definition int (v : json) : result Z :=
  match v with
  | JInt z => Ok z
  | JBool b => Ok (Z.b2z b)
  | JStr s => int_of_string s
  | _ => Raise TypeError
  end.

(** [int(v, 16)]: only a string can be converted with an explicit base. *)
Definition int16 (v : json) : result Z :=
  match v with
  | JStr s => int_of_hex_string s
  | _ => Raise TypeError
  end.

(** [a == b].  A bool equals the integer 0 or 1; lists are compared
    element by element; dicts by key, whatever the order. *)
Fixpoint eq (a b : json) {struct a} : bool :=
  match a, b with
  | JNull, JNull => true
  | JBool x, JBool y => Bool.eqb x y
  | JBool x, JInt y => Z.b2z x =? y
  | JInt x, JBool y => x =? Z.b2z y
  | JInt x, JInt y => x =? y
  | JStr x, JStr y => (x =? y)%string
  | JArr xs, JArr ys =>
      (fix eq_items (xs ys : list json) {struct xs} : bool :=
         match xs, ys with
         | [], [] => true
         | x :: xs', y :: ys' => eq x y && eq_items xs' ys'
         | _, _ => false
         end) xs ys
  | JObj fx, JObj fy =>
      (List.length fx =? List.length fy)%nat &&
      (fix eq_fields (fx : list (string * json)) {struct fx} : bool :=
         match fx with
         | [] => true
         | (k, v) :: rest =>
             match lookup k fy with
             | Some w => eq v w
             | None => false
             end && eq_fields rest
         end) fx
  | _, _ => false
  end.

(** [x in items]. *)
Definition contains (x : json) (items : list json) : bool :=
  existsb (eq x) items.

End Py.

(** ** The outside world *)

(** What an external call does: it returns, or it throws an exception
    whose [str(e)] is [msg]. *)
Inductive outcome (A : Type) : Type :=
| Returned (a : A)
| Threw (msg : string).
Arguments Returned {A} a.
Arguments Threw {A} msg.

(** A [requests] response: [json_body] is what [response.json()] does. *)
Record response : Type := mkResponse {
  status_code : Z;
  text : string;
  json_body : outcome json
}.

Inductive event : Type :=
| EvConnect (url : string)
| EvSleep (seconds : Z)
| EvGet (url : string)
| EvRpc (method : string) (params : list json)
| EvDecode (scale_bytes : json).

Definition trace : Type := list event.

Record Environment : Type := mkEnvironment {
  (** [SubstrateInterface(url=...)] *)
  substrate_connect : trace -> string -> outcome unit;
  (** [requests.get(url, headers=..., timeout=30)] *)
  requests_get : trace -> string -> outcome response;
  (** [self.substrate.rpc_request(method, params)] *)
  rpc_request : trace -> string -> list json -> outcome json;
  (** [self.substrate.decode_scale(type_string='Extrinsic', scale_bytes=...)] *)
  decode_scale : trace -> json -> outcome json;
  (** [str(v)] for a list or a dict *)
  container_str : json -> string
}.

Record TestConfig : Type := mkTestConfig {
  sidecar_endpoint : string;
  substrate_endpoint : string;
  log_level : string;
  num_blocks_to_test : Z;
  retry_attempts : Z
}.

(** ** Computations: a result and the extended trace *)

Definition M (A : Type) : Type := trace -> result A * trace.

Definition ret {A} (a : A) : M A := fun tr => (Ok a, tr).

Definition bind {A B} (c : M A) (k : A -> M B) : M B :=
  fun tr =>
    match c tr with
    | (Ok a, tr') => k a tr'
    | (Raise e, tr') => (Raise e, tr')
    end.

Definition lift {A} (r : result A) : M A := fun tr => (r, tr).

Declare Scope M_scope.
Delimit Scope M_scope with M.
Notation "x <- c ;; k" := (bind c (fun x => k))
  (at level 61, c at next level, right associativity) : M_scope.
Notation "' pat <- c ;; k" := (bind c (fun x => match x with pat => k end))
  (at level 61, pat pattern, c at next level, right associativity) : M_scope.

(** A field comparison: (field name, value from Sidecar, value from RPC). *)
Definition comparison : Type := (string * json * json)%type.

(** [if error:] on an [Optional[str]]. *)
Definition error_set (e : option string) : bool :=
  match e with
  | Some s => negb (s =? "")%string
  | None => false
  end.

(** The loop over a comparison list: [all_passed] stays [True] when every
    pair is equal. *)
Definition compare_all (comparisons : list comparison) : bool :=
  forallb (fun c : comparison => let '(_, sidecar_value, rpc_value) := c in
                                 Py.eq sidecar_value rpc_value) comparisons.

(** One pass of the [try] body of [_fetch_sidecar_data] after the request:
    the parsed body, or the error message of this attempt. *)
Definition attempt_result (o : outcome response) : json + string :=
  match o with
  | Threw msg => inr msg
  | Returned r =>
      if status_code r =? 200 then
        match json_body r with
        | Returned body => inl body
        | Threw msg => inr msg
        end
      else inr ("HTTP " ++ Py.str_of_Z (status_code r) ++ ": " ++ text r)
  end.

(** Lines 313-314: the extrinsic counts as a transaction. *)
Definition is_transaction (ext : json) : result bool :=
  (method <-- Py.get_default ext "method" (JObj []) ;;
   pallet <-- Py.get_default method "pallet" (JStr "") ;;
   method_name <-- Py.get_default method "method" (JStr "") ;;
   Ok (negb (Py.eq pallet (JStr "timestamp") && Py.eq method_name (JStr "set"))
       && negb (Py.eq pallet (JStr "parachainSystem")
                && Py.contains method_name
                     [JStr "setValidationData"; JStr "sudo"])))%res.

(** Lines 306-315: the loop that counts [actual_transactions]. *)
Fixpoint count_transactions (extrinsics : list json) (actual_transactions : Z)
  : result Z :=
  match extrinsics with
  | [] => Ok actual_transactions
  | ext :: rest =>
      (t <-- is_transaction ext ;;
       count_transactions rest
         (if t then actual_transactions + 1 else actual_transactions))%res
  end.

(** Lines 144 and 145: one name comparison. *)
Definition name_comparison (label : string) (sidecar_name rpc_name : json)
  : result comparison :=
  (s <-- Py.lower sidecar_name ;;
   l <-- Py.lower rpc_name ;;
   r <-- Py.replace_underscores l ;;
   Ok (label, s, r))%res.

(** Lines 357-368 of [run_tests]: the summary. *)
Definition summarize (test_results : list (string * bool)) : bool :=
  let passed_tests := List.length (filter snd test_results) in
  let total_tests := List.length test_results in
  (passed_tests =? total_tests)%nat.

Section Tester.

Variable E : Environment.
Variable config : TestConfig.

Local Open Scope M_scope.

Definition sleep (seconds : Z) : M unit :=
  fun tr => (Ok tt, (tr ++ [EvSleep seconds])%list).

Definition http_get (url : string) : M (outcome response) :=
  fun tr => (Ok (requests_get E tr url), (tr ++ [EvGet url])%list).

Definition call_rpc (method : string) (params : list json) : M (outcome json) :=
  fun tr => (Ok (rpc_request E tr method params), (tr ++ [EvRpc method params])%list).

Definition call_decode (scale_bytes : json) : M json :=
  fun tr =>
    (match decode_scale E tr scale_bytes with
     | Returned v => Ok v
     | Threw msg => Raise (ExternalError msg)
     end, (tr ++ [EvDecode scale_bytes])%list).

(** [str(v)]. *)
Definition str (v : json) : string :=
  match v with
  | JNull => "None"
  | JBool true => "True"
  | JBool false => "False"
  | JInt z => Py.str_of_Z z
  | JStr s => s
  | _ => container_str E v
  end.

Definition _connect_substrate : M bool :=
  fun tr =>
    (match substrate_connect E tr (substrate_endpoint config) with
     | Returned _ => Ok true
     | Threw _ => Ok false
     end, (tr ++ [EvConnect (substrate_endpoint config)])%list).

(** The [for attempt in range(retry_attempts)] loop, with [remaining]
    iterations to go. *)
Fixpoint fetch_attempts (url : string) (remaining : nat) (attempt : Z)
  : M (json * option string) :=
  match remaining with
  | O => ret (JNull, Some "Max retries exceeded")
  | S remaining' =>
      _ <- (if 0 <? attempt then sleep 2 else ret tt) ;;
      o <- http_get url ;;
      match attempt_result o with
      | inl body => ret (body, None)
      | inr error_msg =>
          if attempt =? retry_attempts config - 1
          then ret (JNull, Some error_msg)
          else fetch_attempts url remaining' (attempt + 1)
      end
  end.

Definition _fetch_sidecar_data (endpoint : string) : M (json * option string) :=
  let url := sidecar_endpoint config ++ endpoint in
  fetch_attempts url (Z.to_nat (retry_attempts config)) 0.

Definition _fetch_substrate_rpc (method : string) (params : list json)
  : M (json * option string) :=
  o <- call_rpc method params ;;
  match o with
  | Threw msg => ret (JNull, Some msg)
  | Returned (JObj fields) =>
      ret (match Py.lookup "result" fields with
           | Some v => v
           | None => JNull
           end, None)
  | Returned v =>
      ret (JNull,
           Some ("'" ++ Py.type_name v ++ "' object has no attribute 'get'"))
  end.

(** Lines 120-126 of [_check_block]: the five header comparisons. *)
Definition base_comparisons (sidecar_data rpc_block : json)
  : result (list comparison) :=
  (n <-- Py.get sidecar_data "number" ;;
   sidecar_number <-- Py.int n ;;
   b <-- Py.getitem rpc_block "block" ;;
   h <-- Py.getitem b "header" ;;
   hn <-- Py.getitem h "number" ;;
   rpc_number <-- Py.int16 hn ;;
   sidecar_parent <-- Py.get sidecar_data "parentHash" ;;
   b <-- Py.getitem rpc_block "block" ;;
   h <-- Py.getitem b "header" ;;
   rpc_parent <-- Py.getitem h "parentHash" ;;
   sidecar_state <-- Py.get sidecar_data "stateRoot" ;;
   b <-- Py.getitem rpc_block "block" ;;
   h <-- Py.getitem b "header" ;;
   rpc_state <-- Py.getitem h "stateRoot" ;;
   sidecar_root <-- Py.get sidecar_data "extrinsicsRoot" ;;
   b <-- Py.getitem rpc_block "block" ;;
   h <-- Py.getitem b "header" ;;
   rpc_root <-- Py.getitem h "extrinsicsRoot" ;;
   sidecar_exts <-- Py.get_default sidecar_data "extrinsics" (JArr []) ;;
   sidecar_count <-- Py.len sidecar_exts ;;
   b <-- Py.getitem rpc_block "block" ;;
   rpc_exts <-- Py.getitem b "extrinsics" ;;
   rpc_count <-- Py.len rpc_exts ;;
   Ok [ ("Block Number", JInt sidecar_number, JInt rpc_number);
        ("Parent Hash", sidecar_parent, rpc_parent);
        ("State Root", sidecar_state, rpc_state);
        ("Extrinsics Root", sidecar_root, rpc_root);
        ("Extrinsics count", JInt sidecar_count, JInt rpc_count) ])%res.

(** Line 131: [rpc_block['block']['extrinsics'][i]]. *)
Definition node_extrinsic (rpc_block : json) (i : nat) : result json :=
  (b <-- Py.getitem rpc_block "block" ;;
   es <-- Py.getitem b "extrinsics" ;;
   Py.getindex es i)%res.

(** Lines 137-145: the pallet and method comparisons of one extrinsic. *)
Definition name_comparisons (decoded_ext sidecar_ext : json)
  : result (list comparison) :=
  (c <-- Py.getitem decoded_ext "call" ;;
   rpc_call_module <-- Py.getitem c "call_module" ;;
   c <-- Py.getitem decoded_ext "call" ;;
   rpc_call_function <-- Py.getitem c "call_function" ;;
   sidecar_method <-- Py.get_default sidecar_ext "method" (JObj []) ;;
   sidecar_pallet <-- Py.get_default sidecar_method "pallet" (JStr "unknown") ;;
   sidecar_method_name <--
     Py.get_default sidecar_method "method" (JStr "unknown") ;;
   pallet_cmp <--
     name_comparison "Extrinsics - Pallet" sidecar_pallet rpc_call_module ;;
   method_cmp <--
     name_comparison "Extrinsics - Method" sidecar_method_name
       rpc_call_function ;;
   Ok [pallet_cmp; method_cmp])%res.

(** Lines 147-151: the signer comparison, when the Sidecar extrinsic has
    a signature. *)
Definition signer_comparisons (sidecar_ext extrinsic_rpc : json)
  : result (list comparison) :=
  (sidecar_signature <-- Py.get sidecar_ext "signature" ;;
   if Py.truthy sidecar_signature then
     signer <-- Py.get_default sidecar_signature "signer" (JObj []) ;;
     sidecar_signer <-- Py.get_default signer "id" (JStr "unknown") ;;
     sg <-- Py.getitem extrinsic_rpc "signature" ;;
     sr <-- Py.getitem sg "signer" ;;
     rpc_signer <-- Py.getitem sr "address" ;;
     Ok [("Extrinsics - Signer", sidecar_signer, rpc_signer)]
   else Ok [])%res.

(** Lines 131-151: the body of the loop over the Sidecar extrinsics; it
    appends to [comparisons]. *)
Definition extrinsic_step (rpc_block : json) (i : nat) (sidecar_ext : json)
    (comparisons : list comparison) : M (list comparison) :=
  extrinsic_rpc <- lift (node_extrinsic rpc_block i) ;;
  decoded_ext <- call_decode extrinsic_rpc ;;
  names <- lift (name_comparisons decoded_ext sidecar_ext) ;;
  signer <- lift (signer_comparisons sidecar_ext extrinsic_rpc) ;;
  ret (comparisons ++ names ++ signer)%list.

(** The [for i, sidecar_ext in enumerate(...)] loop, from index [i]. *)
Fixpoint extrinsic_loop (rpc_block : json) (i : nat) (exts : list json)
    (comparisons : list comparison) : M (list comparison) :=
  match exts with
  | [] => ret comparisons
  | sidecar_ext :: rest =>
      comparisons' <- extrinsic_step rpc_block i sidecar_ext comparisons ;;
      extrinsic_loop rpc_block (S i) rest comparisons'
  end.

(** Lines 120-151: the comparison list of a block. *)
Definition build_comparisons (sidecar_data rpc_block : json)
  : M (list comparison) :=
  comparisons <- lift (base_comparisons sidecar_data rpc_block) ;;
  exts <- lift (v <-- Py.get_default sidecar_data "extrinsics" (JArr []) ;;
                Py.iter v)%res ;;
  extrinsic_loop rpc_block 0 exts comparisons.

Definition _check_block (block_identifier : Z) : M bool :=
  '(sidecar_data, sidecar_error) <-
     _fetch_sidecar_data ("/blocks/" ++ Py.str_of_Z block_identifier) ;;
  if error_set sidecar_error then ret false
  else
    block_hash <- lift (Py.get sidecar_data "hash") ;;
    if negb (Py.truthy block_hash) then ret false
    else
      '(rpc_block, rpc_error) <- _fetch_substrate_rpc "chain_getBlock" [block_hash] ;;
      if error_set rpc_error then ret false
      else
        comparisons <- build_comparisons sidecar_data rpc_block ;;
        ret (compare_all comparisons).

Definition test_node_version : M bool :=
  '(rpc_node_version, version_error) <- _fetch_substrate_rpc "system_version" [] ;;
  if error_set version_error then ret false
  else
    '(sidecar_node_version, sidecar_error) <- _fetch_sidecar_data "/node/version" ;;
    if error_set sidecar_error then ret false
    else
      client_version <- lift (Py.get sidecar_node_version "clientVersion") ;;
      if Py.eq client_version rpc_node_version then ret true else ret false.

Definition test_runtime_version : M bool :=
  '(sidecar_data, sidecar_error) <- _fetch_sidecar_data "/runtime/spec" ;;
  if error_set sidecar_error then ret false
  else
    '(rpc_data, rpc_error) <- _fetch_substrate_rpc "state_getRuntimeVersion" [] ;;
    if error_set rpc_error then ret false
    else
      comparisons <- lift
        (s_name <-- Py.get sidecar_data "specName" ;;
         r_name <-- Py.get rpc_data "specName" ;;
         s_spec <-- Py.get sidecar_data "specVersion" ;;
         r_spec <-- Py.get rpc_data "specVersion" ;;
         s_tx <-- Py.get sidecar_data "transactionVersion" ;;
         r_tx <-- Py.get rpc_data "transactionVersion" ;;
         Ok [ ("Spec Name", s_name, r_name);
              ("Spec Version", JStr (str s_spec), JStr (str r_spec));
              ("Transaction Version", JStr (str s_tx), JStr (str r_tx)) ])%res ;;
      ret (compare_all comparisons).

Definition test_head_block : M bool :=
  '(sidecar_data, sidecar_error) <- _fetch_sidecar_data "/blocks/head" ;;
  if error_set sidecar_error then ret false
  else
    '(rpc_head_hash, rpc_head_error) <- _fetch_substrate_rpc "chain_getFinalizedHead" [] ;;
    if error_set rpc_head_error then ret false
    else
      '(rpc_block, rpc_block_error) <-
         _fetch_substrate_rpc "chain_getBlock" [rpc_head_hash] ;;
      if error_set rpc_block_error then ret false
      else
        comparisons <- lift
          (n <-- Py.get sidecar_data "number" ;;
           sidecar_number <-- Py.int n ;;
           b <-- Py.getitem rpc_block "block" ;;
           h <-- Py.getitem b "header" ;;
           hn <-- Py.getitem h "number" ;;
           rpc_number <-- Py.int16 hn ;;
           sidecar_hash <-- Py.get sidecar_data "hash" ;;
           sidecar_parent <-- Py.get sidecar_data "parentHash" ;;
           b <-- Py.getitem rpc_block "block" ;;
           h <-- Py.getitem b "header" ;;
           rpc_parent <-- Py.getitem h "parentHash" ;;
           sidecar_state <-- Py.get sidecar_data "stateRoot" ;;
           b <-- Py.getitem rpc_block "block" ;;
           h <-- Py.getitem b "header" ;;
           rpc_state <-- Py.getitem h "stateRoot" ;;
           sidecar_root <-- Py.get sidecar_data "extrinsicsRoot" ;;
           b <-- Py.getitem rpc_block "block" ;;
           h <-- Py.getitem b "header" ;;
           rpc_root <-- Py.getitem h "extrinsicsRoot" ;;
           sidecar_exts <-- Py.get_default sidecar_data "extrinsics" (JArr []) ;;
           sidecar_count <-- Py.len sidecar_exts ;;
           b <-- Py.getitem rpc_block "block" ;;
           rpc_exts <-- Py.getitem b "extrinsics" ;;
           rpc_count <-- Py.len rpc_exts ;;
           Ok [ ("Block Number", JInt sidecar_number, JInt rpc_number);
                ("Block Hash", sidecar_hash, rpc_head_hash);
                ("Parent Hash", sidecar_parent, rpc_parent);
                ("State Root", sidecar_state, rpc_state);
                ("Extrinsics Root", sidecar_root, rpc_root);
                ("Extrinsics Count", JInt sidecar_count, JInt rpc_count) ])%res ;;
        ret (compare_all comparisons).

(** Lines 302-315: the transactions and the extrinsics that a fetched
    block adds to the totals. *)
Definition statistics_of (sidecar_block : json) : result (Z * Z) :=
  (extrinsics <-- Py.get_default sidecar_block "extrinsics" (JArr []) ;;
   n <-- Py.len extrinsics ;;
   items <-- Py.iter extrinsics ;;
   actual_transactions <-- count_transactions items 0 ;;
   Ok (actual_transactions, n))%res.

(** Lines 300-317: the statistics of one validated block, added to the
    running totals. *)
Definition gather_statistics (block_number : Z)
    (total_transactions total_extrinsics : Z) : M (Z * Z) :=
  '(sidecar_block, _) <-
     _fetch_sidecar_data ("/blocks/" ++ Py.str_of_Z block_number) ;;
  if Py.truthy sidecar_block then
    '(actual_transactions, n) <- lift (statistics_of sidecar_block) ;;
    ret (total_transactions + actual_transactions, total_extrinsics + n)
  else ret (total_transactions, total_extrinsics).

(** The local state of the loop of [test_last_n_blocks_transactions]:
    [(all_passed, total_transactions, total_extrinsics)]. *)
Definition loop_state : Type := (bool * Z * Z)%type.

(** Lines 288-317: one iteration of the loop, for index [i]. *)
Definition block_iteration (head_number i : Z) (st : loop_state)
  : M loop_state :=
  let '(all_passed, total_transactions, total_extrinsics) := st in
  let block_number := head_number - i in
  block_passed <- _check_block block_number ;;
  if negb block_passed then ret (false, total_transactions, total_extrinsics)
  else
    '(total_transactions', total_extrinsics') <-
       gather_statistics block_number total_transactions total_extrinsics ;;
    ret (all_passed, total_transactions', total_extrinsics').

(** The [for i in range(num_blocks)] loop, with [remaining] iterations
    to go from index [i]. *)
Fixpoint blocks_loop (head_number : Z) (remaining : nat) (i : Z)
    (st : loop_state) : M loop_state :=
  match remaining with
  | O => ret st
  | S remaining' =>
      st' <- block_iteration head_number i st ;;
      blocks_loop head_number remaining' (i + 1) st'
  end.

(** Lines 269-317: everything before the summary is logged. *)
Definition last_n_blocks_statistics (num_blocks : Z) : M (option loop_state) :=
  '(sidecar_head, head_error) <- _fetch_sidecar_data "/blocks/head" ;;
  if error_set head_error then ret None
  else
    head_number <- lift (n <-- Py.get sidecar_head "number" ;; Py.int n)%res ;;
    st <- blocks_loop head_number (Z.to_nat num_blocks) 0 (true, 0, 0) ;;
    ret (Some st).

Definition test_last_n_blocks_transactions (num_blocks : Z) : M bool :=
  st <- last_n_blocks_statistics num_blocks ;;
  match st with
  | None => ret false
  | Some (all_passed, _, _) => ret all_passed
  end.

(** Lines 335-347 of [run_tests]: the four checks fill [test_results]. *)
Definition run_checks : M (list (string * bool)) :=
  r1 <- test_node_version ;;
  r2 <- test_runtime_version ;;
  r3 <- test_head_block ;;
  r4 <- test_last_n_blocks_transactions (num_blocks_to_test config) ;;
  ret [ ("Node Info", r1);
        ("Runtime Version", r2);
        ("Head Block", r3);
        ("Last " ++ Py.str_of_Z (num_blocks_to_test config)
           ++ " Blocks Transactions", r4) ].

Definition run_tests : M bool :=
  connected <- _connect_substrate ;;
  if negb connected then ret false
  else
    test_results <- run_checks ;;
    ret (summarize test_results).

End Tester.

(** ** The Sidecar fetcher *)

(** The external calls of attempt number [a] (counted from 0): a sleep of
    two seconds unless it is the first, then the request. *)
Definition sleep_before (a : nat) : trace :=
  if (0 <? a)%nat then [EvSleep 2] else [].

Definition attempt_events (url : string) (a : nat) : trace :=
  (sleep_before a ++ [EvGet url])%list.

(** The external calls of the [n] attempts [a], [a+1], ... *)
Definition retry_events (url : string) (a n : nat) : trace :=
  flat_map (attempt_events url) (seq a n).

Definition is_get (e : event) : bool :=
  match e with EvGet _ => true | _ => false end.

Definition is_sleep (e : event) : bool :=
  match e with EvSleep _ => true | _ => false end.

(** An attempt that does not deliver a payload, and the error text the
    fetcher keeps for it. *)
Inductive failed_attempt : outcome response -> string -> Prop :=
| failed_status r :
    status_code r <> 200 ->
    failed_attempt (Returned r)
      ("HTTP " ++ Py.str_of_Z (status_code r) ++ ": " ++ text r)
| failed_request msg :
    failed_attempt (Threw msg) msg
| failed_body r msg :
    status_code r = 200 -> json_body r = Threw msg ->
    failed_attempt (Returned r) msg.



(** ** Names and extrinsics, as the specification speaks of them *)

(** The normal form of a pallet or method name: lower case, no
    underscore. *)
Definition normalize (s : string) : string :=
  Py.strip_underscores (Py.lower_str s).

(** The comparison of two names after both were normalized. *)
Definition names_match_normalized (sidecar_name rpc_name : string) : bool :=
  (normalize sidecar_name =? normalize rpc_name)%string.

Fixpoint has_underscore (s : string) : bool :=
  match s with
  | EmptyString => false
  | String c rest => (c =? "_")%char || has_underscore rest
  end.

(** The Sidecar extrinsic carries a signature: its [signature] field is
    there and is not empty. *)
Definition carries_signature (sidecar_ext : json) : bool :=
  match Py.get sidecar_ext "signature" with
  | Ok v => Py.truthy v
  | Raise _ => false
  end.

(** [sidecar_data.get('extrinsics', [])], as the loops visit it. *)
Definition sidecar_extrinsics (sidecar_data : json) : result (list json) :=
  (v <-- Py.get_default sidecar_data "extrinsics" (JArr []) ;; Py.iter v)%res.

(** [rpc_block['block']['extrinsics']]. *)
Definition node_extrinsics (rpc_block : json) : result json :=
  (b <-- Py.getitem rpc_block "block" ;; Py.getitem b "extrinsics")%res.

(** ** The run of the Last-N-Blocks loop, block by block *)

(** The heights that a check of [num_blocks] blocks below the head
    [head_number] visits, in order. *)
Definition heights (head_number : Z) (first count : nat) : list Z :=
  map (fun i => head_number - Z.of_nat i) (seq first count).

(** [block_run E config h tr passed added tr'] is what the loop does for
    the height [h] when it starts from the history [tr]: the validation
    returns [passed]; a block that failed adds nothing; for a block that
    passed, a second fetch follows, and its payload, when there is one,
    gives the pair [added] of transactions and extrinsics. *)
Inductive block_run (E : Environment) (config : TestConfig) (h : Z) (tr : trace)
  : bool -> Z * Z -> trace -> Prop :=
| block_failed tr1 :
    _check_block E config h tr = (Ok false, tr1) ->
    block_run E config h tr false (0, 0) tr1
| block_not_counted tr1 sidecar_block e tr2 :
    _check_block E config h tr = (Ok true, tr1) ->
    _fetch_sidecar_data E config ("/blocks/" ++ Py.str_of_Z h) tr1 =
      (Ok (sidecar_block, e), tr2) ->
    Py.truthy sidecar_block = false ->
    block_run E config h tr true (0, 0) tr2
| block_counted tr1 sidecar_block e tr2 added :
    _check_block E config h tr = (Ok true, tr1) ->
    _fetch_sidecar_data E config ("/blocks/" ++ Py.str_of_Z h) tr1 =
      (Ok (sidecar_block, e), tr2) ->
    Py.truthy sidecar_block = true ->
    statistics_of sidecar_block = Ok added ->
    block_run E config h tr true added tr2.

Inductive blocks_run (E : Environment) (config : TestConfig)
  : list Z -> trace -> list (bool * (Z * Z)) -> trace -> Prop :=
| blocks_done tr :
    blocks_run E config [] tr [] tr
| blocks_next h hs tr passed added tr1 rs tr2 :
    block_run E config h tr passed added tr1 ->
    blocks_run E config hs tr1 rs tr2 ->
    blocks_run E config (h :: hs) tr ((passed, added) :: rs) tr2.

Definition all_passed_of (rs : list (bool * (Z * Z))) : bool :=
  forallb fst rs.

Definition transactions_of (rs : list (bool * (Z * Z))) : Z :=
  fold_right Z.add 0 (map (fun r => fst (snd r)) rs).

Definition extrinsics_of (rs : list (bool * (Z * Z))) : Z :=
  fold_right Z.add 0 (map (fun r => snd (snd r)) rs).

(** ** Inherents *)

(** The pallet and the method of a Sidecar extrinsic, as the statistics
    read them. *)
Definition ext_call (ext : json) : result (json * json) :=
  (method <-- Py.get_default ext "method" (JObj []) ;;
   pallet <-- Py.get_default method "pallet" (JStr "") ;;
   method_name <-- Py.get_default method "method" (JStr "") ;;
   Ok (pallet, method_name))%res.

(** The known inherent calls. *)
Inductive inherent : json -> json -> Prop :=
| inherent_timestamp_set :
    inherent (JStr "timestamp") (JStr "set")
| inherent_set_validation_data :
    inherent (JStr "parachainSystem") (JStr "setValidationData")
| inherent_sudo :
    inherent (JStr "parachainSystem") (JStr "sudo").

Definition is_inherent (pallet method_name : string) : bool :=
  ((pallet =? "timestamp") && (method_name =? "set")
   || (pallet =? "parachainSystem")
      && ((method_name =? "setValidationData") || (method_name =? "sudo")))%string.

(** A real transaction: an extrinsic whose call can be read and is not a
    known inherent. *)
Definition real_transaction (ext : json) : bool :=
  match ext_call ext with
  | Ok (JStr pallet, JStr method_name) => negb (is_inherent pallet method_name)
  | Ok _ => true
  | Raise _ => false
  end.

(** ** A small chain used in the examples

    Three blocks, 8 to 10, served by a Sidecar at [http://sidecar] and by a
    node.  Block 10 holds the timestamp inherent and two signed
    transactions; the Sidecar reports a wrong state root for block 9. *)

Module Scenario.

Definition sidecar_ext (pallet method : string) (signer : option string) : json :=
  JObj [ ("method", JObj [("pallet", JStr pallet); ("method", JStr method)]);
         ("signature",
          match signer with
          | Some a => JObj [("signature", JStr "0x01");
                            ("signer", JObj [("id", JStr a)])]
          | None => JNull
          end) ].

Definition node_ext (module function : string) (signer : option string) : json :=
  JObj (("call", JObj [("call_module", JStr module);
                       ("call_function", JStr function)])
        :: match signer with
           | Some a => [("signature", JObj [("signer", JObj [("address", JStr a)])])]
           | None => []
           end).

Definition sidecar_block (number hash parent state root : string)
    (exts : list json) : json :=
  JObj [ ("number", JStr number); ("hash", JStr hash);
         ("parentHash", JStr parent); ("stateRoot", JStr state);
         ("extrinsicsRoot", JStr root); ("extrinsics", JArr exts) ].

Definition node_block (number parent state root : string) (exts : list json)
  : json :=
  JObj [ ("block",
          JObj [ ("header",
                  JObj [ ("number", JStr number); ("parentHash", JStr parent);
                         ("stateRoot", JStr state);
                         ("extrinsicsRoot", JStr root) ]);
                 ("extrinsics", JArr exts) ]) ].

Definition sidecar_exts_10 : list json :=
  [ sidecar_ext "timestamp" "set" None;
    sidecar_ext "balances" "transferKeepAlive" (Some "5Alice");
    sidecar_ext "system" "remarkWithEvent" (Some "5Bob") ].

Definition node_exts_10 : list json :=
  [ node_ext "Timestamp" "set" None;
    node_ext "Balances" "transfer_keep_alive" (Some "5Alice");
    node_ext "System" "remark_with_event" (Some "5Bob") ].

Definition sidecar_block_10 : json :=
  sidecar_block "10" "0xh10" "0xh9" "0xs10" "0xe10" sidecar_exts_10.
Definition node_block_10 : json :=
  node_block "0xa" "0xh9" "0xs10" "0xe10" node_exts_10.

Definition sidecar_block_9 : json :=
  sidecar_block "9" "0xh9" "0xh8" "0xbad" "0xe9"
    [sidecar_ext "timestamp" "set" None].
Definition node_block_9 : json :=
  node_block "0x9" "0xh8" "0xs9" "0xe9" [node_ext "Timestamp" "set" None].

Definition sidecar_block_8 : json :=
  sidecar_block "8" "0xh8" "0xh7" "0xs8" "0xe8"
    [ sidecar_ext "parachainSystem" "setValidationData" None;
      sidecar_ext "timestamp" "set" None ].
Definition node_block_8 : json :=
  node_block "0x8" "0xh7" "0xs8" "0xe8"
    [ node_ext "ParachainSystem" "set_validation_data" None;
      node_ext "Timestamp" "set" None ].

Definition ok_response (body : json) : outcome response :=
  Returned (mkResponse 200 "" (Returned body)).

Definition server_error : outcome response :=
  Returned (mkResponse 500 "boom" (Threw "Expecting value")).

Definition sidecar (url : string) : outcome response :=
  if (url =? "http://sidecar/blocks/head")%string then ok_response sidecar_block_10
  else if (url =? "http://sidecar/blocks/10")%string then ok_response sidecar_block_10
  else if (url =? "http://sidecar/blocks/9")%string then ok_response sidecar_block_9
  else if (url =? "http://sidecar/blocks/8")%string then ok_response sidecar_block_8
  else if (url =? "http://sidecar/node/version")%string
       then ok_response (JObj [("clientVersion", JStr "1.2.3")])
  else if (url =? "http://sidecar/runtime/spec")%string
       then ok_response (JObj [ ("specName", JStr "node");
                                ("specVersion", JStr "100");
                                ("transactionVersion", JStr "1") ])
  else Returned (mkResponse 404 "not found" (Threw "Expecting value")).

Definition rpc_result (v : json) : outcome json :=
  Returned (JObj [("jsonrpc", JStr "2.0"); ("result", v); ("id", JInt 1)]).

Definition node (method : string) (params : list json) : outcome json :=
  if (method =? "system_version")%string then rpc_result (JStr "1.2.3")
  else if (method =? "state_getRuntimeVersion")%string
       then rpc_result (JObj [ ("specName", JStr "node");
                               ("specVersion", JInt 100);
                               ("transactionVersion", JInt 1) ])
  else if (method =? "chain_getFinalizedHead")%string then rpc_result (JStr "0xh10")
  else if (method =? "chain_getBlock")%string then
    match params with
    | [JStr h] =>
        if (h =? "0xh10")%string then rpc_result node_block_10
        else if (h =? "0xh9")%string then rpc_result node_block_9
        else if (h =? "0xh8")%string then rpc_result node_block_8
        else rpc_result JNull
    | _ => Threw "invalid params"
    end
  else Threw "Method not found".

(** The decoder of the examples hands a node extrinsic back as it is: the
    node extrinsics above already carry their decoded fields. *)
Definition env : Environment :=
  mkEnvironment (fun _ _ => Returned tt)
                (fun _ url => sidecar url)
                (fun _ method params => node method params)
                (fun _ scale_bytes => Returned scale_bytes)
                (fun _ => "").

Definition cfg : TestConfig := mkTestConfig "http://sidecar" "ws://node" "INFO" 3 3.

(** A Sidecar that answers every request with HTTP 500. *)
Definition env_down : Environment :=
  mkEnvironment (fun _ _ => Returned tt)
                (fun _ _ => server_error)
                (fun _ method params => node method params)
                (fun _ scale_bytes => Returned scale_bytes)
                (fun _ => "").

Definition cfg_no_retry : TestConfig :=
  mkTestConfig "http://sidecar" "ws://node" "INFO" 3 0.

(** The same Sidecar, whose record of block 10 lacks the block number. *)
Definition sidecar_block_10_no_number : json :=
  JObj [ ("hash", JStr "0xh10"); ("parentHash", JStr "0xh9");
         ("stateRoot", JStr "0xs10"); ("extrinsicsRoot", JStr "0xe10");
         ("extrinsics", JArr sidecar_exts_10) ].

Definition env_no_number : Environment :=
  mkEnvironment (fun _ _ => Returned tt)
                (fun _ url =>
                   if (url =? "http://sidecar/blocks/10")%string
                   then ok_response sidecar_block_10_no_number
                   else sidecar url)
                (fun _ method params => node method params)
                (fun _ scale_bytes => Returned scale_bytes)
                (fun _ => "").

(** The same Sidecar, whose record of block 10 lacks the block hash. *)
Definition sidecar_block_10_no_hash : json :=
  JObj [ ("number", JStr "10"); ("parentHash", JStr "0xh9");
         ("stateRoot", JStr "0xs10"); ("extrinsicsRoot", JStr "0xe10");
         ("extrinsics", JArr sidecar_exts_10) ].

Definition env_no_hash : Environment :=
  mkEnvironment (fun _ _ => Returned tt)
                (fun _ url =>
                   if (url =? "http://sidecar/blocks/10")%string
                   then ok_response sidecar_block_10_no_hash
                   else sidecar url)
                (fun _ method params => node method params)
                (fun _ scale_bytes => Returned scale_bytes)
                (fun _ => "").

(** A Sidecar that serves each block once and fails afterwards. *)
Definition asked_before (url : string) (tr : trace) : bool :=
  existsb (fun e => match e with
                    | EvGet u => (u =? url)%string
                    | _ => false
                    end) tr.

Definition env_once : Environment :=
  mkEnvironment (fun _ _ => Returned tt)
                (fun tr url => if asked_before url tr then server_error
                               else sidecar url)
                (fun _ method params => node method params)
                (fun _ scale_bytes => Returned scale_bytes)
                (fun _ => "").

Definition cfg_one_attempt : TestConfig :=
  mkTestConfig "http://sidecar" "ws://node" "INFO" 3 1.

(** The histories of the examples. *)
Definition trace_head : trace := [EvGet "http://sidecar/blocks/head"].

Definition trace_last_3 : trace :=
  Eval vm_compute in snd (test_last_n_blocks_transactions env cfg 3 []).

Definition trace_block_10 : trace :=
  Eval vm_compute in snd (_check_block env cfg_one_attempt 10 []).




End Scenario.

(** ** Proof steps *)

(** Case analysis on the next operation of a pure computation that is
    known to return. *)
Ltac step_result H :=
  match type of H with
  | rbind ?r _ = Ok _ =>
      let x := fresh "x" in
      let Hx := fresh "Hx" in
      destruct r as [x|?] eqn:Hx; [cbn [rbind] in H | discriminate H]
  end.

(** The same for a computation with effects. *)
Ltac step_bind H :=
  match type of H with
  | bind ?c _ ?tr = (Ok _, _) =>
      let r := fresh "r" in
      let t := fresh "tr" in
      let Hc := fresh "Hc" in
      unfold bind at 1 in H;
      destruct (c tr) as [[r|?] t] eqn:Hc; [|discriminate H]
  end.

(** ** The entry point, and observations on histories *)

(** Lines 404-425: [main] once the arguments are parsed into [config]:
    the status handed to [sys.exit].  (An interrupt from the keyboard is
    not modelled.) *)
Definition main (E : Environment) (config : TestConfig) : trace -> Z * trace :=
  fun tr =>
    match run_tests E config tr with
    | (Ok success, tr') => (if success then 0 else 1, tr')
    | (Raise _, tr') => (1, tr')
    end.

Definition is_decode (e : event) : bool :=
  match e with EvDecode _ => true | _ => false end.

Definition is_rpc (e : event) : bool :=
  match e with EvRpc _ _ => true | _ => false end.

(** An attempt that delivers the payload [body]. *)
Definition delivers (o : outcome response) (body : json) : Prop :=
  exists r, o = Returned r /\ status_code r = 200 /\ json_body r = Returned body.

(** ** Services that fail, for the examples *)

Module Outage.

Definition gets (tr : trace) : nat := List.length (filter is_get tr).

(** A Sidecar that answers the first two requests with HTTP 500. *)
Definition env_flaky : Environment :=
  mkEnvironment (fun _ _ => Returned tt)
                (fun tr url => if (gets tr <? 2)%nat then Scenario.server_error
                               else Scenario.sidecar url)
                (fun _ method params => Scenario.node method params)
                (fun _ scale_bytes => Returned scale_bytes)
                (fun _ => "").

(** A Sidecar whose requests fail with an exception without text. *)
Definition env_silent : Environment :=
  mkEnvironment (fun _ _ => Returned tt)
                (fun _ _ => Threw "")
                (fun _ method params => Scenario.node method params)
                (fun _ scale_bytes => Returned scale_bytes)
                (fun _ => "").

(** A node that cannot be reached. *)
Definition env_offline : Environment :=
  mkEnvironment (fun _ _ => Threw "Connection refused")
                (fun _ url => Scenario.sidecar url)
                (fun _ _ _ => Threw "Connection refused")
                (fun _ _ => Threw "Connection refused")
                (fun _ => "").

(** A node that accepts the connection and fails every call. *)
Definition env_rpc_down : Environment :=
  mkEnvironment (fun _ _ => Returned tt)
                (fun _ url => Scenario.sidecar url)
                (fun _ _ _ => Threw "Connection closed")
                (fun _ scale_bytes => Returned scale_bytes)
                (fun _ => "").

(** A Sidecar that reports for block 10 a hash the node does not have. *)
Definition sidecar_block_10_forked : json :=
  Scenario.sidecar_block "10" "0xdead" "0xh9" "0xs10" "0xe10"
    Scenario.sidecar_exts_10.

Definition env_forked : Environment :=
  mkEnvironment (fun _ _ => Returned tt)
                (fun _ url =>
                   if (url =? "http://sidecar/blocks/10")%string
                   then Scenario.ok_response sidecar_block_10_forked
                   else Scenario.sidecar url)
                (fun _ method params => Scenario.node method params)
                (fun _ scale_bytes => Returned scale_bytes)
                (fun _ => "").

(** Block 8 with one extrinsic missing on the Sidecar side, and on the
    node side. *)
Definition sidecar_block_8_short : json :=
  Scenario.sidecar_block "8" "0xh8" "0xh7" "0xs8" "0xe8"
    [Scenario.sidecar_ext "parachainSystem" "setValidationData" None].

Definition node_block_8_short : json :=
  Scenario.node_block "0x8" "0xh7" "0xs8" "0xe8"
    [Scenario.node_ext "ParachainSystem" "set_validation_data" None].

Definition node_exts_8 : list json :=
  [ Scenario.node_ext "ParachainSystem" "set_validation_data" None;
    Scenario.node_ext "Timestamp" "set" None ].

Definition comparisons_8_short : list comparison :=
  Eval vm_compute in
    match fst (build_comparisons Scenario.env sidecar_block_8_short
                 Scenario.node_block_8 []) with
    | Ok cs => cs
    | Raise _ => []
    end.

(** Block 10 as a node delivers it: each extrinsic is the text of its
    SCALE bytes, and the decoder turns the text into the decoded
    extrinsic. *)
Definition node_block_10_hex : json :=
  Scenario.node_block "0xa" "0xh9" "0xs10" "0xe10"
    [JStr "0x280403"; JStr "0x450284"; JStr "0x310284"].

Definition decode_hex (scale_bytes : json) : outcome json :=
  match scale_bytes with
  | JStr s =>
      if (s =? "0x280403")%string
      then Returned (Scenario.node_ext "Timestamp" "set" None)
      else if (s =? "0x450284")%string
      then Returned (Scenario.node_ext "Balances" "transfer_keep_alive"
                       (Some "5Alice"))
      else if (s =? "0x310284")%string
      then Returned (Scenario.node_ext "System" "remark_with_event"
                       (Some "5Bob"))
      else Threw "decoding failed"
  | _ => Threw "unsupported scale_bytes"
  end.

Definition env_hex : Environment :=
  mkEnvironment (fun _ _ => Returned tt)
                (fun _ url => Scenario.sidecar url)
                (fun _ method params => Scenario.node method params)
                (fun _ scale_bytes => decode_hex scale_bytes)
                (fun _ => "").

End Outage.

(** * Theorems *)

Unset Implicit Arguments.

Example int_dec : Py.int (JStr "100") = Ok 100.
Proof. reflexivity. Qed.
Example int_hex : Py.int16 (JStr "0x64") = Ok 100.
Proof. reflexivity. Qed.
Example int_hex_us : Py.int16 (JStr " -0X_f_f ") = Ok (-255).
Proof. reflexivity. Qed.
Example int_bad : Py.int (JStr "1__0") = Raise ValueError.
Proof. reflexivity. Qed.
Example str_neg : Py.str_of_Z (-12) = "-12".
Proof. reflexivity. Qed.
Example str_zero : Py.str_of_Z 0 = "0".
Proof. reflexivity. Qed.
Example lower_ex : Py.lower_str "parachainSystem" = "parachainsystem".
Proof. reflexivity. Qed.


Lemma failed_attempt_result o msg :
  failed_attempt o msg -> attempt_result o = inr msg.
Proof.
  intros H. destruct H as [r Hs | m | r m Hs Hb]; simpl.
  - apply Z.eqb_neq in Hs. now rewrite Hs.
  - reflexivity.
  - rewrite Hs, Hb. reflexivity.
Qed.

Lemma retry_events_snoc url a n :
  retry_events url a (S n) =
  (retry_events url a n ++ attempt_events url (a + n))%list.
Proof.
  unfold retry_events. rewrite seq_S, flat_map_app. simpl.
  now rewrite app_nil_r.
Qed.

Lemma retry_events_cons url a n :
  retry_events url a (S n) =
  (attempt_events url a ++ retry_events url (S a) n)%list.
Proof. reflexivity. Qed.

Lemma retry_events_gets url a n :
  List.length (filter is_get (retry_events url a n)) = n.
Proof.
  revert a. induction n as [|n IH]; intros a; [reflexivity|].
  rewrite retry_events_cons, filter_app, length_app, IH.
  unfold attempt_events, sleep_before. destruct (0 <? a)%nat; reflexivity.
Qed.

Lemma retry_events_sleeps url n :
  filter is_sleep (retry_events url 0 n) = repeat (EvSleep 2) (n - 1).
Proof.
  induction n as [|n IH]; [reflexivity|].
  rewrite retry_events_snoc, filter_app, IH. simpl.
  unfold attempt_events, sleep_before.
  destruct n as [|n]; [reflexivity|].
  replace (S n - 1)%nat with n by lia.
  replace (S (S n) - 1)%nat with (S n) by lia.
  simpl. now rewrite <- repeat_cons.
Qed.

Section Fetcher.

Variable E : Environment.
Variable config : TestConfig.

Lemma fetch_attempts_step url remaining a tr :
  fetch_attempts E config url (S remaining) (Z.of_nat a) tr =
  let tr1 := (tr ++ sleep_before a)%list in
  let tr2 := (tr ++ attempt_events url a)%list in
  match attempt_result (requests_get E tr1 url) with
  | inl body => (Ok (body, None), tr2)
  | inr error_msg =>
      if Z.of_nat a =? retry_attempts config - 1
      then (Ok (JNull, Some error_msg), tr2)
      else fetch_attempts E config url remaining (Z.of_nat (S a)) tr2
  end.
Proof.
  cbn [fetch_attempts]. unfold bind, attempt_events, sleep_before.
  replace (Z.of_nat a + 1) with (Z.of_nat (S a)) by lia.
  destruct a as [|a].
  - change (0 <? Z.of_nat 0) with false. change (0 <? 0)%nat with false.
    unfold ret at 1. unfold http_get. rewrite app_nil_r. cbn [app].
    destruct (attempt_result _); [reflexivity|].
    destruct (Z.eqb _ _); reflexivity.
  - replace (0 <? Z.of_nat (S a)) with true by (symmetry; apply Z.ltb_lt; lia).
    change (0 <? S a)%nat with true.
    unfold sleep, http_get. rewrite <- app_assoc. cbn [app].
    destruct (attempt_result _); [reflexivity|].
    destruct (Z.eqb _ _); reflexivity.
Qed.

(** The fetcher always returns, and what it returns is a payload without
    an error or an error without a payload. *)
Lemma fetch_attempts_total url remaining attempt tr :
  exists v e tr',
    fetch_attempts E config url remaining attempt tr = (Ok (v, e), tr')
    /\ (v = JNull \/ e = None).
Proof.
  revert attempt tr. induction remaining as [|n IH]; intros attempt tr.
  - simpl. unfold ret. eauto 6.
  - simpl. unfold bind.
    destruct ((if 0 <? attempt then sleep 2 else ret tt) tr)
      as [[[]|e] tr1] eqn:Hs.
    + unfold http_get. destruct (attempt_result _) as [body|msg].
      * unfold ret. eauto 6.
      * destruct (Z.eqb _ _); [unfold ret; eauto 6 | apply IH].
    + destruct (0 <? attempt); discriminate.
Qed.

Lemma fetch_sidecar_total endpoint tr :
  exists v e tr',
    _fetch_sidecar_data E config endpoint tr = (Ok (v, e), tr')
    /\ (v = JNull \/ e = None).
Proof. apply fetch_attempts_total. Qed.

Lemma fetch_attempts_all_fail url remaining a tr :
  (0 < remaining)%nat ->
  retry_attempts config = Z.of_nat (a + remaining) ->
  (forall j, (j < remaining)%nat ->
     exists msg,
       failed_attempt
         (requests_get E
            (tr ++ retry_events url a j ++ sleep_before (a + j))%list url) msg) ->
  exists msg,
    failed_attempt
      (requests_get E
         (tr ++ retry_events url a (remaining - 1)
             ++ sleep_before (a + (remaining - 1)))%list url) msg
    /\ fetch_attempts E config url remaining (Z.of_nat a) tr =
       (Ok (JNull, Some msg), (tr ++ retry_events url a remaining)%list).
Proof.
  revert a tr. induction remaining as [|n IH]; intros a tr Hpos Hk Hfail; [lia|].
  rewrite fetch_attempts_step. cbv zeta.
  destruct (Hfail 0%nat Hpos) as [m0 Hm0].
  simpl in Hm0. rewrite Nat.add_0_r in Hm0.
  rewrite (failed_attempt_result _ _ Hm0).
  destruct n as [|n].
  - replace (Z.of_nat a =? retry_attempts config - 1) with true
      by (symmetry; apply Z.eqb_eq; lia).
    exists m0. split.
    + simpl. now rewrite Nat.add_0_r.
    + unfold retry_events. simpl. now rewrite app_nil_r.
  - replace (Z.of_nat a =? retry_attempts config - 1) with false
      by (symmetry; apply Z.eqb_neq; lia).
    destruct (IH (S a) (tr ++ attempt_events url a)%list) as [m [Hm Hrun]].
    + lia.
    + lia.
    + intros j Hj. destruct (Hfail (S j)) as [mj Hmj]; [lia|].
      exists mj. rewrite retry_events_cons in Hmj.
      rewrite <- !app_assoc in *.
      replace (S a + j)%nat with (a + S j)%nat by lia. exact Hmj.
    + exists m. split.
      * replace (S (S n) - 1)%nat with (S (S n - 1)) by lia.
        rewrite retry_events_cons. rewrite <- !app_assoc in *.
        replace (a + S (S n - 1))%nat with (S a + (S n - 1))%nat by lia.
        exact Hm.
      * rewrite Hrun. rewrite retry_events_cons.
        now rewrite <- !app_assoc.
Qed.

End Fetcher.

(** C10: with a retry count of zero or less the fetcher makes no HTTP
    request (the trace is unchanged) and returns no payload together with
    the fixed error text "Max retries exceeded". *)
Theorem fetch_without_attempts E config endpoint tr :
  retry_attempts config <= 0 ->
  _fetch_sidecar_data E config endpoint tr =
  (Ok (JNull, Some "Max retries exceeded"), tr).
Proof.
  intros Hk. unfold _fetch_sidecar_data.
  replace (Z.to_nat (retry_attempts config)) with 0%nat by lia.
  reflexivity.
Qed.

Lemma fetch_without_attempts_witness :
  _fetch_sidecar_data Scenario.env Scenario.cfg_no_retry "/blocks/head" [] =
  (Ok (JNull, Some "Max retries exceeded"), []).
Proof.
  apply (fetch_without_attempts Scenario.env Scenario.cfg_no_retry).
  simpl. lia.
Defined.

(** C4: with a retry count [k >= 1], when every attempt of a fetch fails
    (a status other than 200, an exception of the request, or a body that
    is not JSON), the fetcher makes exactly [k] requests with a sleep of 2
    seconds before each one but the first, and returns, without raising,
    no payload and the error text of the last attempt: "HTTP <status>:
    <body>" or the exception text.  Whatever the server does, a fetch
    returns a payload without an error or an error without a payload. *)
Theorem fetch_exhausts_attempts E config endpoint tr :
  let url := sidecar_endpoint config ++ endpoint in
  let k := Z.to_nat (retry_attempts config) in
  1 <= retry_attempts config ->
  (forall j, (j < k)%nat ->
     exists msg,
       failed_attempt
         (requests_get E (tr ++ retry_events url 0 j ++ sleep_before j)%list url)
         msg) ->
  (exists msg,
     failed_attempt
       (requests_get E
          (tr ++ retry_events url 0 (k - 1) ++ sleep_before (k - 1))%list url)
       msg
     /\ _fetch_sidecar_data E config endpoint tr =
        (Ok (JNull, Some msg), (tr ++ retry_events url 0 k)%list))
  /\ List.length (filter is_get (retry_events url 0 k)) = k
  /\ filter is_sleep (retry_events url 0 k) = repeat (EvSleep 2) (k - 1)
  /\ (forall endpoint' tr',
        exists v e tr'',
          _fetch_sidecar_data E config endpoint' tr' = (Ok (v, e), tr'')
          /\ (v = JNull \/ e = None)).
Proof.
  intros url k Hk Hfail. repeat split.
  - apply (fetch_attempts_all_fail E config url k 0%nat tr).
    + lia.
    + subst k. simpl. lia.
    + exact Hfail.
  - apply retry_events_gets.
  - apply retry_events_sleeps.
  - intros. apply fetch_sidecar_total.
Qed.

Lemma fetch_exhausts_attempts_witness :
  exists msg,
    failed_attempt Scenario.server_error msg
    /\ _fetch_sidecar_data Scenario.env_down Scenario.cfg "/blocks/head" [] =
       (Ok (JNull, Some msg),
        [ EvGet "http://sidecar/blocks/head"; EvSleep 2;
          EvGet "http://sidecar/blocks/head"; EvSleep 2;
          EvGet "http://sidecar/blocks/head" ]).
Proof.
  refine (proj1 (fetch_exhausts_attempts Scenario.env_down Scenario.cfg
                   "/blocks/head" [] _ _)).
  - simpl. lia.
  - intros j _. exists "HTTP 500: boom".
    apply (failed_status (mkResponse 500 "boom" (Threw "Expecting value"))).
    simpl. lia.
Defined.

(** ** Name normalization *)

Lemma lower_char_idempotent c : Py.lower_char (Py.lower_char c) = Py.lower_char c.
Proof. destruct c as [[] [] [] [] [] [] [] []]; reflexivity. Qed.

Lemma lower_char_underscore c :
  (Py.lower_char c =? "_")%char = (c =? "_")%char.
Proof. destruct c as [[] [] [] [] [] [] [] []]; reflexivity. Qed.

Lemma lower_str_idempotent s : Py.lower_str (Py.lower_str s) = Py.lower_str s.
Proof.
  induction s as [|c s IH]; simpl; [reflexivity|].
  now rewrite lower_char_idempotent, IH.
Qed.

Lemma strip_lower_commute s :
  Py.strip_underscores (Py.lower_str s) = Py.lower_str (Py.strip_underscores s).
Proof.
  induction s as [|c s IH]; simpl; [reflexivity|].
  rewrite lower_char_underscore.
  destruct (c =? "_")%char; simpl; now rewrite IH.
Qed.

Lemma strip_underscores_idempotent s :
  Py.strip_underscores (Py.strip_underscores s) = Py.strip_underscores s.
Proof.
  induction s as [|c s IH]; simpl; [reflexivity|].
  destruct (c =? "_")%char eqn:Hc; simpl; [exact IH|].
  now rewrite Hc, IH.
Qed.

Lemma strip_without_underscore s :
  has_underscore s = false -> Py.strip_underscores s = s.
Proof.
  induction s as [|c s IH]; simpl; [reflexivity|].
  intros H. apply orb_false_iff in H as [Hc Hs].
  now rewrite Hc, IH.
Qed.

Lemma normalize_idempotent s : normalize (normalize s) = normalize s.
Proof.
  unfold normalize.
  rewrite (strip_lower_commute s), lower_str_idempotent.
  now rewrite strip_lower_commute, strip_underscores_idempotent.
Qed.

Lemma normalize_app a b : normalize (a ++ b) = normalize a ++ normalize b.
Proof.
  unfold normalize. induction a as [|c a IH]; simpl; [reflexivity|].
  destruct (Py.lower_char c =? "_")%char; simpl; now rewrite IH.
Qed.

Lemma normalize_without_underscore s :
  has_underscore s = false -> normalize s = Py.lower_str s.
Proof.
  intros H. unfold normalize.
  now rewrite strip_lower_commute, strip_without_underscore.
Qed.

(** C2, as the code has it: the Sidecar name is lowercased, the node name
    is lowercased and stripped of its underscores.  For a Sidecar name
    without underscore the comparison is the comparison of the two
    normalized names.  Normalization is idempotent, ignores the case of
    every character and ignores underscores; the Sidecar names
    parachainSystem and setValidationData match the node names
    parachain_system and set_validation_data. *)
Theorem name_comparison_normalizes label sidecar_name rpc_name :
  has_underscore sidecar_name = false ->
  name_comparison label (JStr sidecar_name) (JStr rpc_name) =
    Ok (label, JStr (Py.lower_str sidecar_name), JStr (normalize rpc_name))
  /\ compare_all
       [(label, JStr (Py.lower_str sidecar_name), JStr (normalize rpc_name))] =
     names_match_normalized sidecar_name rpc_name
  /\ (forall s, normalize (normalize s) = normalize s)
  /\ (forall a c b,
        normalize (a ++ String c b) = normalize (a ++ String (Py.lower_char c) b))
  /\ (forall a b, normalize (a ++ "_" ++ b) = normalize (a ++ b))
  /\ names_match_normalized "parachainSystem" "parachain_system" = true
  /\ names_match_normalized "setValidationData" "set_validation_data" = true.
Proof.
  intros Hs. repeat split.
  - simpl. unfold compare_all, names_match_normalized. simpl.
    rewrite (normalize_without_underscore _ Hs). now rewrite andb_true_r.
  - apply normalize_idempotent.
  - intros a c b. rewrite !normalize_app. f_equal.
    unfold normalize. simpl. now rewrite lower_char_idempotent.
  - intros a b. now rewrite !normalize_app.
Qed.

Lemma name_comparison_normalizes_witness :
  name_comparison "Extrinsics - Pallet" (JStr "parachainSystem")
    (JStr "parachain_system") =
    Ok ("Extrinsics - Pallet", JStr "parachainsystem", JStr "parachainsystem")
  /\ compare_all
       [("Extrinsics - Pallet", JStr "parachainsystem", JStr "parachainsystem")] =
     true.
Proof.
  destruct (name_comparison_normalizes "Extrinsics - Pallet" "parachainSystem"
              "parachain_system" eq_refl) as [H1 [H2 _]].
  split; [exact H1 | exact H2].
Defined.

(** C2 as stated fails: the Sidecar side keeps its underscores, so the
    same name with an underscore on both sides is reported as a mismatch
    although the two normalized names are equal. *)
Lemma sidecar_underscore_not_stripped :
  names_match_normalized "parachain_system" "parachain_system" = true
  /\ name_comparison "Extrinsics - Pallet" (JStr "parachain_system")
       (JStr "parachain_system") =
     Ok ("Extrinsics - Pallet", JStr "parachain_system", JStr "parachainsystem")
  /\ compare_all
       [("Extrinsics - Pallet", JStr "parachain_system", JStr "parachainsystem")] =
     false.
Proof. repeat split. Qed.

(** ** The comparison list of a block *)

Lemma name_comparison_returns label a b c :
  name_comparison label a b = Ok c ->
  exists s r, c = (label, JStr s, JStr r).
Proof.
  unfold name_comparison, Py.lower, Py.replace_underscores.
  destruct a; try discriminate. destruct b; try discriminate.
  simpl. intros H. injection H as <-. eauto.
Qed.



(** The signer is looked up in the node extrinsic as the node delivered
    it, not in its decoded form: when that extrinsic is a text, such as a
    hex-encoded SCALE value, the lookup raises for every signed
    extrinsic. *)
Lemma signed_extrinsic_needs_node_object sidecar_ext s :
  carries_signature sidecar_ext = true ->
  exists e, signer_comparisons sidecar_ext (JStr s) = Raise e.
Proof.
  unfold carries_signature, signer_comparisons. intros H.
  destruct (Py.get sidecar_ext "signature") as [sig|]; [|discriminate H].
  cbn [rbind]. rewrite H.
  destruct (Py.get_default sig "signer" (JObj [])) as [signer|e];
    [|eexists; reflexivity].
  cbn [rbind].
  destruct (Py.get_default signer "id" (JStr "unknown")) as [id|e];
    eexists; reflexivity.
Qed.


Section BlockValidator.

Variable E : Environment.

Lemma extrinsic_step_inv rpc_block i sidecar_ext comparisons tr cs tr' :
  extrinsic_step E rpc_block i sidecar_ext comparisons tr = (Ok cs, tr') ->
  exists extrinsic_rpc decoded_ext names signer,
    node_extrinsic rpc_block i = Ok extrinsic_rpc
    /\ decode_scale E tr extrinsic_rpc = Returned decoded_ext
    /\ name_comparisons decoded_ext sidecar_ext = Ok names
    /\ signer_comparisons sidecar_ext extrinsic_rpc = Ok signer
    /\ cs = (comparisons ++ names ++ signer)%list
    /\ tr' = (tr ++ [EvDecode extrinsic_rpc])%list.
Proof.
  unfold extrinsic_step. intros H.
  step_bind H. unfold lift in Hc. injection Hc as Hn <-.
  step_bind H. unfold call_decode in Hc. injection Hc as Hd <-.
  step_bind H. unfold lift in Hc. injection Hc as Hnames <-.
  step_bind H. unfold lift in Hc. injection Hc as Hsigner <-.
  unfold ret in H. injection H as <- <-.
  destruct (decode_scale E tr r) as [d|msg] eqn:Hdec; [|discriminate Hd].
  injection Hd as <-.
  exists r, d, r1, r2. repeat split; assumption.
Qed.

Lemma extrinsic_step_returns rpc_block i sidecar_ext comparisons tr
    extrinsic_rpc decoded_ext names signer :
  node_extrinsic rpc_block i = Ok extrinsic_rpc ->
  decode_scale E tr extrinsic_rpc = Returned decoded_ext ->
  name_comparisons decoded_ext sidecar_ext = Ok names ->
  signer_comparisons sidecar_ext extrinsic_rpc = Ok signer ->
  extrinsic_step E rpc_block i sidecar_ext comparisons tr =
  (Ok (comparisons ++ names ++ signer)%list, (tr ++ [EvDecode extrinsic_rpc])%list).
Proof.
  intros Hn Hd Hnames Hsigner.
  unfold extrinsic_step, bind, lift, call_decode, ret.
  now rewrite Hn, Hd, Hnames, Hsigner.
Qed.




Lemma node_extrinsic_nth rpc_block node_exts i :
  node_extrinsics rpc_block = Ok (JArr node_exts) ->
  node_extrinsic rpc_block i = Py.of_option (nth_error node_exts i) IndexError.
Proof.
  unfold node_extrinsics, node_extrinsic. intros H.
  step_result H. cbn [rbind]. rewrite H. cbn [rbind Py.getindex].
  now destruct (nth_error node_exts i).
Qed.



End BlockValidator.



(** ** The Last-N-Blocks loop *)

Section LastBlocks.

Variable E : Environment.
Variable config : TestConfig.

Lemma gather_statistics_run block_number total_transactions total_extrinsics
    tr sidecar_block e tr' :
  _fetch_sidecar_data E config ("/blocks/" ++ Py.str_of_Z block_number) tr =
    (Ok (sidecar_block, e), tr') ->
  gather_statistics E config block_number total_transactions total_extrinsics tr =
  if Py.truthy sidecar_block then
    match statistics_of sidecar_block with
    | Ok (actual_transactions, n) =>
        (Ok (total_transactions + actual_transactions, total_extrinsics + n), tr')
    | Raise x => (Raise x, tr')
    end
  else (Ok (total_transactions, total_extrinsics), tr').
Proof.
  intros Hf. unfold gather_statistics, bind at 1. rewrite Hf.
  destruct (Py.truthy sidecar_block); [|reflexivity].
  unfold bind, lift, ret.
  destruct (statistics_of sidecar_block) as [[a n]|x]; reflexivity.
Qed.

Lemma block_iteration_run head_number i all_passed total_transactions
    total_extrinsics tr st' tr' :
  block_iteration E config head_number i
    (all_passed, total_transactions, total_extrinsics) tr = (Ok st', tr')
  <-> exists passed added,
        block_run E config (head_number - i) tr passed added tr'
        /\ st' = (all_passed && passed,
                  total_transactions + fst added, total_extrinsics + snd added).
Proof.
  unfold block_iteration. split.
  - intros H. step_bind H. destruct r as [|]; cbn [negb] in H.
    + destruct (fetch_sidecar_total E config
                  ("/blocks/" ++ Py.str_of_Z (head_number - i)) tr0)
        as (v & e & tr2 & Hf & _).
      unfold bind at 1 in H.
      rewrite (gather_statistics_run _ _ _ _ _ _ _ Hf) in H.
      destruct (Py.truthy v) eqn:Hv.
      * destruct (statistics_of v) as [[a n]|x] eqn:Hs; [|discriminate H].
        unfold ret in H. injection H as <- <-.
        exists true, (a, n). split.
        -- eapply block_counted; eassumption.
        -- now rewrite andb_true_r.
      * unfold ret in H. injection H as <- <-.
        exists true, (0, 0). split.
        -- eapply block_not_counted; eassumption.
        -- simpl. now rewrite andb_true_r, !Z.add_0_r.
    + unfold ret in H. injection H as <- <-.
      exists false, (0, 0). split.
      * now apply block_failed.
      * simpl. now rewrite andb_false_r, !Z.add_0_r.
  - intros (passed & added & Hrun & ->).
    destruct Hrun as [tr1 Hc | tr1 v e tr2 Hc Hf Hv | tr1 v e tr2 [a n] Hc Hf Hv Hs];
      unfold bind at 1; rewrite Hc; cbn [negb].
    + unfold ret. simpl. now rewrite andb_false_r, !Z.add_0_r.
    + unfold bind at 1. rewrite (gather_statistics_run _ _ _ _ _ _ _ Hf), Hv.
      unfold ret. simpl. now rewrite andb_true_r, !Z.add_0_r.
    + unfold bind at 1. rewrite (gather_statistics_run _ _ _ _ _ _ _ Hf), Hv, Hs.
      unfold ret. simpl. now rewrite andb_true_r.
Qed.

Lemma blocks_loop_run head_number remaining :
  forall i all_passed total_transactions total_extrinsics tr st' tr',
    blocks_loop E config head_number remaining (Z.of_nat i)
      (all_passed, total_transactions, total_extrinsics) tr = (Ok st', tr')
    <-> exists rs,
          blocks_run E config (heights head_number i remaining) tr rs tr'
          /\ st' = (all_passed && all_passed_of rs,
                    total_transactions + transactions_of rs,
                    total_extrinsics + extrinsics_of rs).
Proof.
  induction remaining as [|n IH];
    intros i all_passed total_transactions total_extrinsics tr st' tr'.
  - simpl. unfold ret. split.
    + intros H. injection H as <- <-. exists []. split; [constructor|].
      simpl. now rewrite andb_true_r, !Z.add_0_r.
    + intros (rs & Hrun & ->). inversion Hrun; subst.
      simpl. now rewrite andb_true_r, !Z.add_0_r.
  - cbn [blocks_loop]. replace (Z.of_nat i + 1) with (Z.of_nat (S i)) by lia.
    split.
    + intros H. step_bind H.
      apply block_iteration_run in Hc as (passed & added & Hb & ->).
      apply IH in H as (rs & Hrs & ->).
      exists ((passed, added) :: rs). split.
      * unfold heights. simpl. econstructor; eassumption.
      * unfold all_passed_of, transactions_of, extrinsics_of. simpl.
        rewrite andb_assoc. f_equal; [f_equal|]; lia.
    + intros (rs & Hrun & ->). unfold heights in Hrun. simpl in Hrun.
      inversion Hrun as [|h hs tr0 passed added tr1 rs' tr2 Hb Hrs]; subst.
      unfold bind at 1.
      assert (Hit : block_iteration E config head_number (Z.of_nat i)
                      (all_passed, total_transactions, total_extrinsics) tr =
                    (Ok (all_passed && passed,
                         total_transactions + fst added,
                         total_extrinsics + snd added), tr1)).
      { apply block_iteration_run. eauto. }
      rewrite Hit. apply IH. exists rs'. split; [exact Hrs|].
      unfold all_passed_of, transactions_of, extrinsics_of. simpl.
      rewrite andb_assoc. f_equal; [f_equal|]; lia.
Qed.

Lemma heights_nth head_number count i :
  (i < count)%nat ->
  nth_error (heights head_number 0 count) i = Some (head_number - Z.of_nat i).
Proof.
  intros Hi. unfold heights.
  rewrite nth_error_map, nth_error_seq.
  apply Nat.ltb_lt in Hi. now rewrite Hi.
Qed.

Lemma last_n_blocks_statistics_run num_blocks tr sidecar_head head_error tr0
    head_number st tr' :
  _fetch_sidecar_data E config "/blocks/head" tr =
    (Ok (sidecar_head, head_error), tr0) ->
  error_set head_error = false ->
  (n <-- Py.get sidecar_head "number" ;; Py.int n)%res = Ok head_number ->
  last_n_blocks_statistics E config num_blocks tr = (Ok st, tr')
  <-> exists rs,
        blocks_run E config (heights head_number 0 (Z.to_nat num_blocks))
          tr0 rs tr'
        /\ st = Some (all_passed_of rs, transactions_of rs, extrinsics_of rs).
Proof.
  intros Hhead Herr Hnum.
  unfold last_n_blocks_statistics, bind at 1. rewrite Hhead, Herr.
  unfold bind at 1, lift at 1. rewrite Hnum.
  split.
  - intros H. step_bind H. unfold ret in H. injection H as <- <-.
    apply (blocks_loop_run head_number (Z.to_nat num_blocks) 0%nat) in Hc
      as (rs & Hrs & ->).
    exists rs. split; [exact Hrs | reflexivity].
  - intros (rs & Hrs & ->). unfold bind.
    assert (Hloop : blocks_loop E config head_number (Z.to_nat num_blocks) 0
                      (true, 0, 0) tr0 =
                    (Ok (true && all_passed_of rs, 0 + transactions_of rs,
                         0 + extrinsics_of rs), tr')).
    { apply (blocks_loop_run head_number (Z.to_nat num_blocks) 0%nat). eauto. }
    rewrite Hloop. reflexivity.
Qed.

Lemma blocks_run_length hs tr rs tr' :
  blocks_run E config hs tr rs tr' -> List.length rs = List.length hs.
Proof. induction 1; simpl; congruence. Qed.

Lemma blocks_run_failed hs tr rs tr' :
  blocks_run E config hs tr rs tr' ->
  forall added, In (false, added) rs -> added = (0, 0).
Proof.
  induction 1 as [|h hs tr passed added' tr1 rs tr2 Hb Hrs IH];
    intros added Hin; [contradiction|].
  destruct Hin as [Heq|Hin]; [|now apply IH].
  injection Heq as -> ->. now inversion Hb.
Qed.

(** C5: once the head fetch gave the height [head_number], the check
    returns [b] exactly when the validator ran, one after the other, on
    the heights [head_number], [head_number - 1], ... (as many as
    [num_blocks]), each run returning some verdict, and [b] is the
    conjunction of these verdicts.  A verdict [false] does not stop the
    run: the remaining heights follow whatever the verdicts are. *)
Theorem last_n_blocks_heights num_blocks tr sidecar_head head_error tr0
    head_number :
  _fetch_sidecar_data E config "/blocks/head" tr =
    (Ok (sidecar_head, head_error), tr0) ->
  error_set head_error = false ->
  (n <-- Py.get sidecar_head "number" ;; Py.int n)%res = Ok head_number ->
  (forall b tr',
      test_last_n_blocks_transactions E config num_blocks tr = (Ok b, tr')
      <-> exists rs,
            blocks_run E config (heights head_number 0 (Z.to_nat num_blocks))
              tr0 rs tr'
            /\ List.length rs = Z.to_nat num_blocks
            /\ b = forallb fst rs)
  /\ List.length (heights head_number 0 (Z.to_nat num_blocks)) =
     Z.to_nat num_blocks
  /\ (forall i, (i < Z.to_nat num_blocks)%nat ->
        nth_error (heights head_number 0 (Z.to_nat num_blocks)) i =
        Some (head_number - Z.of_nat i)).
Proof.
  intros Hhead Herr Hnum.
  assert (Hlen : List.length (heights head_number 0 (Z.to_nat num_blocks)) =
                 Z.to_nat num_blocks).
  { unfold heights. now rewrite length_map, length_seq. }
  repeat split.
  - intros H. unfold test_last_n_blocks_transactions in H. step_bind H.
    apply (last_n_blocks_statistics_run _ _ _ _ _ _ _ _ Hhead Herr Hnum) in Hc
      as (rs & Hrs & ->).
    unfold ret in H. injection H as <- <-.
    exists rs. split; [exact Hrs | split; [| reflexivity]].
    rewrite (blocks_run_length _ _ _ _ Hrs). exact Hlen.
  - intros (rs & Hrs & _ & ->).
    unfold test_last_n_blocks_transactions, bind.
    assert (Hst : last_n_blocks_statistics E config num_blocks tr =
                  (Ok (Some (all_passed_of rs, transactions_of rs,
                             extrinsics_of rs)), tr')).
    { apply (last_n_blocks_statistics_run _ _ _ _ _ _ _ _ Hhead Herr Hnum).
      eauto. }
    rewrite Hst. reflexivity.
  - exact Hlen.
  - intros i Hi. now apply heights_nth.
Qed.

(** C9: in one iteration of the loop, a block whose validation fails
    leaves both totals unchanged and no second fetch is made.  For a block
    that passed, the statistics come from a second fetch of the same
    block: when that fetch ends with an error the totals and the running
    verdict are unchanged, and when it delivers a payload the totals grow
    by the counts of that payload.  Over the whole loop, every block with
    the verdict [false] adds (0, 0). *)
Theorem failed_block_adds_nothing head_number i all_passed total_transactions
    total_extrinsics tr passed tr1 sidecar_block e tr2 :
  _check_block E config (head_number - i) tr = (Ok passed, tr1) ->
  _fetch_sidecar_data E config ("/blocks/" ++ Py.str_of_Z (head_number - i)) tr1 =
    (Ok (sidecar_block, e), tr2) ->
  (passed = false ->
     block_iteration E config head_number i
       (all_passed, total_transactions, total_extrinsics) tr =
     (Ok (false, total_transactions, total_extrinsics), tr1))
  /\ (passed = true -> e <> None ->
        block_iteration E config head_number i
          (all_passed, total_transactions, total_extrinsics) tr =
        (Ok (all_passed, total_transactions, total_extrinsics), tr2))
  /\ (passed = true -> Py.truthy sidecar_block = true ->
        forall actual_transactions n,
          statistics_of sidecar_block = Ok (actual_transactions, n) ->
          block_iteration E config head_number i
            (all_passed, total_transactions, total_extrinsics) tr =
          (Ok (all_passed, total_transactions + actual_transactions,
               total_extrinsics + n), tr2))
  /\ (forall hs tr3 rs tr4,
        blocks_run E config hs tr3 rs tr4 ->
        forall added, In (false, added) rs -> added = (0, 0)).
Proof.
  intros Hc Hf. repeat split.
  - intros ->. unfold block_iteration, bind at 1. rewrite Hc. reflexivity.
  - intros -> He. unfold block_iteration, bind at 1. rewrite Hc. cbn [negb].
    unfold bind at 1. rewrite (gather_statistics_run _ _ _ _ _ _ _ Hf).
    destruct (fetch_sidecar_total E config
                ("/blocks/" ++ Py.str_of_Z (head_number - i)) tr1)
      as (v & e' & tr' & Hf' & Hor).
    rewrite Hf in Hf'. injection Hf' as <- <- <-.
    destruct Hor as [-> | ->]; [reflexivity | contradiction].
  - intros -> Hv a n Hs. unfold block_iteration, bind at 1. rewrite Hc.
    cbn [negb]. unfold bind at 1.
    rewrite (gather_statistics_run _ _ _ _ _ _ _ Hf), Hv, Hs. reflexivity.
  - intros hs tr3 rs tr4 Hrun. apply (blocks_run_failed _ _ _ _ Hrun).
Qed.

End LastBlocks.

Lemma last_n_blocks_heights_witness :
  test_last_n_blocks_transactions Scenario.env Scenario.cfg 3 [] =
  (Ok false, Scenario.trace_last_3).
Proof.
  destruct (last_n_blocks_heights Scenario.env Scenario.cfg 3 []
              Scenario.sidecar_block_10 None Scenario.trace_head 10
              eq_refl eq_refl eq_refl) as [H _].
  apply (proj2 (H false Scenario.trace_last_3)).
  exists [(true, (2, 3)); (false, (0, 0)); (true, (0, 2))].
  split; [|split; reflexivity].
  eapply blocks_next;
    [ eapply block_counted; [vm_compute; reflexivity ..] | ].
  eapply blocks_next;
    [ eapply block_failed; vm_compute; reflexivity | ].
  eapply blocks_next;
    [ eapply block_counted; [vm_compute; reflexivity ..] | ].
  apply blocks_done.
Defined.

Lemma failed_block_adds_nothing_witness :
  block_iteration Scenario.env Scenario.cfg_one_attempt 10 1 (true, 2, 3) [] =
    (Ok (false, 2, 3),
     [EvGet "http://sidecar/blocks/9"; EvRpc "chain_getBlock" [JStr "0xh9"];
      EvDecode (Scenario.node_ext "Timestamp" "set" None)])
  /\ block_iteration Scenario.env_once Scenario.cfg_one_attempt 10 0
       (true, 0, 0) [] =
     (Ok (true, 0, 0),
      (Scenario.trace_block_10 ++ [EvGet "http://sidecar/blocks/10"])%list).
Proof.
  split.
  - refine (proj1 (failed_block_adds_nothing Scenario.env
                     Scenario.cfg_one_attempt 10 1 true 2 3 [] false _
                     Scenario.sidecar_block_9 None _ _ _) eq_refl);
      vm_compute; reflexivity.
  - refine (proj1 (proj2 (failed_block_adds_nothing Scenario.env_once
                     Scenario.cfg_one_attempt 10 0 true 0 0 [] true
                     Scenario.trace_block_10
                     JNull (Some "HTTP 500: boom") _ _ _)) eq_refl _);
      [vm_compute; reflexivity | vm_compute; reflexivity | discriminate].
Defined.

(** ** Statistics *)

Lemma eq_name v s :
  Py.eq v (JStr s) = match v with JStr x => (x =? s)%string | _ => false end.
Proof. destruct v; reflexivity. Qed.

Lemma is_transaction_real ext pallet method_name :
  ext_call ext = Ok (pallet, method_name) ->
  is_transaction ext = Ok (real_transaction ext).
Proof.
  unfold is_transaction, real_transaction, ext_call. intros H.
  repeat step_result H. injection H as <- <-.
  cbn [rbind]. rewrite Hx0. cbn [rbind]. rewrite Hx1. cbn [rbind].
  unfold Py.contains, existsb. rewrite !eq_name.
  destruct x0, x1; try reflexivity; unfold is_inherent;
    repeat match goal with
           | |- context [String.eqb ?a ?b] => destruct (String.eqb a b)
           end; reflexivity.
Qed.

Lemma count_transactions_real exts :
  forall actual_transactions,
    (forall ext, In ext exts ->
       exists pallet method_name, ext_call ext = Ok (pallet, method_name)) ->
    count_transactions exts actual_transactions =
    Ok (actual_transactions
        + Z.of_nat (List.length (filter real_transaction exts))).
Proof.
  induction exts as [|ext exts IH]; intros acc Hcalls.
  - simpl. f_equal. lia.
  - destruct (Hcalls ext (or_introl eq_refl)) as (p & m & Hcall).
    cbn [count_transactions]. rewrite (is_transaction_real _ _ _ Hcall).
    cbn [rbind]. rewrite IH by (intros e He; apply Hcalls; now right).
    cbn [filter]. destruct (real_transaction ext); cbn [List.length];
      f_equal; lia.
Qed.

Lemma statistics_of_list sidecar_block exts :
  Py.get_default sidecar_block "extrinsics" (JArr []) = Ok (JArr exts) ->
  (forall ext, In ext exts ->
     exists pallet method_name, ext_call ext = Ok (pallet, method_name)) ->
  statistics_of sidecar_block =
  Ok (Z.of_nat (List.length (filter real_transaction exts)),
      Z.of_nat (List.length exts)).
Proof.
  intros Hexts Hcalls. unfold statistics_of. rewrite Hexts.
  cbn [rbind Py.len Py.iter].
  now rewrite (count_transactions_real exts 0 Hcalls).
Qed.

Lemma real_transaction_inherent ext pallet method_name :
  ext_call ext = Ok (pallet, method_name) ->
  real_transaction ext = false <-> inherent pallet method_name.
Proof.
  intros Hcall. unfold real_transaction. rewrite Hcall. split.
  - destruct pallet; try discriminate. destruct method_name; try discriminate.
    intros H. apply negb_false_iff in H. unfold is_inherent in H.
    apply orb_true_iff in H as [H|H]; apply andb_true_iff in H as [Hp Hm].
    + apply String.eqb_eq in Hp, Hm. subst. constructor.
    + apply String.eqb_eq in Hp. subst.
      apply orb_true_iff in Hm as [Hm|Hm]; apply String.eqb_eq in Hm; subst;
        constructor.
  - intros H. destruct H; reflexivity.
Qed.

Section Statistics.

Variable E : Environment.
Variable config : TestConfig.

(** C6: for a block that passed validation, when the statistics fetch
    delivers its record with the extrinsics [exts], the iteration adds the
    number of [exts] to [total_extrinsics] and adds to
    [total_transactions] the number of those that are real transactions;
    an extrinsic is left out exactly when its call is timestamp.set,
    parachainSystem.setValidationData or parachainSystem.sudo.  The block
    10 of the examples, one timestamp.set and two other extrinsics, adds
    2 and 3. *)
Theorem transactions_exclude_inherents head_number i all_passed
    total_transactions total_extrinsics tr tr1 sidecar_block e tr2 exts :
  _check_block E config (head_number - i) tr = (Ok true, tr1) ->
  _fetch_sidecar_data E config ("/blocks/" ++ Py.str_of_Z (head_number - i)) tr1 =
    (Ok (sidecar_block, e), tr2) ->
  Py.truthy sidecar_block = true ->
  Py.get_default sidecar_block "extrinsics" (JArr []) = Ok (JArr exts) ->
  (forall ext, In ext exts ->
     exists pallet method_name, ext_call ext = Ok (pallet, method_name)) ->
  block_iteration E config head_number i
    (all_passed, total_transactions, total_extrinsics) tr =
    (Ok (all_passed,
         total_transactions
         + Z.of_nat (List.length (filter real_transaction exts)),
         total_extrinsics + Z.of_nat (List.length exts)), tr2)
  /\ (forall ext pallet method_name,
        ext_call ext = Ok (pallet, method_name) ->
        (real_transaction ext = false <-> inherent pallet method_name))
  /\ statistics_of Scenario.sidecar_block_10 = Ok (2, 3).
Proof.
  intros Hc Hf Hv Hexts Hcalls. repeat split.
  - unfold block_iteration, bind at 1. rewrite Hc. cbn [negb].
    unfold bind at 1.
    rewrite (gather_statistics_run _ _ _ _ _ _ _ _ _ Hf), Hv.
    now rewrite (statistics_of_list _ _ Hexts Hcalls).
  - apply (real_transaction_inherent _ _ _ H).
  - apply (real_transaction_inherent _ _ _ H).
Qed.

End Statistics.

Lemma transactions_exclude_inherents_witness :
  block_iteration Scenario.env Scenario.cfg_one_attempt 10 0 (true, 0, 0) [] =
  (Ok (true, 2, 3),
   (Scenario.trace_block_10 ++ [EvGet "http://sidecar/blocks/10"])%list).
Proof.
  refine (proj1 (transactions_exclude_inherents Scenario.env
                   Scenario.cfg_one_attempt 10 0 true 0 0 []
                   Scenario.trace_block_10 Scenario.sidecar_block_10 None _
                   Scenario.sidecar_exts_10 _ _ eq_refl eq_refl _)).
  - vm_compute; reflexivity.
  - vm_compute; reflexivity.
  - intros ext Hin.
    destruct Hin as [<-|[<-|[<-|[]]]]; eexists _, _; reflexivity.
Defined.

(** ** Missing fields *)

Section MissingFields.

Variable E : Environment.
Variable config : TestConfig.

(** Without a guard, a Sidecar record without block number makes the
    first comparison raise. *)
Lemma base_comparisons_without_number fields rpc_block :
  Py.lookup "number" fields = None ->
  base_comparisons (JObj fields) rpc_block = Raise TypeError.
Proof.
  intros H. unfold base_comparisons, Py.get, Py.get_default. now rewrite H.
Qed.

(** C7, as the code has it: when the Sidecar record of the block has no
    block hash, or an empty one, the validator returns [false] at once:
    the history ends with the fetch that delivered the record, so there
    is no further request to the Sidecar and none to the node. *)
Theorem missing_hash_fails_check block_identifier tr fields sidecar_error tr1 :
  _fetch_sidecar_data E config ("/blocks/" ++ Py.str_of_Z block_identifier) tr =
    (Ok (JObj fields, sidecar_error), tr1) ->
  error_set sidecar_error = false ->
  match Py.lookup "hash" fields with
  | Some block_hash => Py.truthy block_hash
  | None => false
  end = false ->
  _check_block E config block_identifier tr = (Ok false, tr1).
Proof.
  intros Hf He Hh. unfold _check_block, bind at 1. rewrite Hf, He.
  unfold bind, lift, Py.get, Py.get_default.
  destruct (Py.lookup "hash" fields) as [h|].
  - rewrite Hh. reflexivity.
  - reflexivity.
Qed.

End MissingFields.

Lemma missing_hash_fails_check_witness :
  _check_block Scenario.env_no_hash Scenario.cfg 10 [] =
  (Ok false, [EvGet "http://sidecar/blocks/10"]).
Proof.
  apply (missing_hash_fails_check Scenario.env_no_hash Scenario.cfg 10 []
           _ None _ eq_refl eq_refl eq_refl).
Defined.

(** C7 as stated fails for the block number: a Sidecar record without it
    makes the validator raise [TypeError], and the exception leaves the
    Last-N-Blocks check and the run driver as well. *)
Lemma missing_number_escapes :
  _check_block Scenario.env_no_number Scenario.cfg 10 [] =
    (Raise TypeError,
     [EvGet "http://sidecar/blocks/10"; EvRpc "chain_getBlock" [JStr "0xh10"]])
  /\ fst (test_last_n_blocks_transactions Scenario.env_no_number Scenario.cfg 3 [])
     = Raise TypeError
  /\ fst (run_tests Scenario.env_no_number Scenario.cfg []) = Raise TypeError.
Proof. repeat split; vm_compute; reflexivity. Qed.

(** ** The run driver *)

Lemma summarize_all test_results :
  summarize test_results = forallb snd test_results.
Proof.
  unfold summarize. induction test_results as [|[label b] rs IH];
    [reflexivity|].
  simpl. destruct b; simpl.
  - exact IH.
  - apply Nat.eqb_neq. pose proof (filter_length_le snd rs). lia.
Qed.

Section RunDriver.

Variable E : Environment.
Variable config : TestConfig.


End RunDriver.


(** * Further properties of the tester *)

(** ** The Sidecar fetcher: success and bounds *)

Lemma delivers_result o body : delivers o body -> attempt_result o = inl body.
Proof.
  intros (r & -> & Hs & Hb). simpl. now rewrite Hs, Hb.
Qed.

Section FetcherBounds.

Variable E : Environment.
Variable config : TestConfig.

Lemma fetch_attempts_delivers url j :
  forall remaining a tr body,
    (j < remaining)%nat ->
    retry_attempts config = Z.of_nat (a + remaining) ->
    (forall i, (i < j)%nat ->
       exists msg,
         failed_attempt
           (requests_get E
              (tr ++ retry_events url a i ++ sleep_before (a + i))%list url) msg) ->
    delivers
      (requests_get E
         (tr ++ retry_events url a j ++ sleep_before (a + j))%list url) body ->
    fetch_attempts E config url remaining (Z.of_nat a) tr =
    (Ok (body, None), (tr ++ retry_events url a (S j))%list).
Proof.
  induction j as [|j IH]; intros remaining a tr body Hj Hk Hfail Hok;
    (destruct remaining as [|n]; [lia|]); rewrite fetch_attempts_step; cbv zeta.
  - simpl in Hok. rewrite Nat.add_0_r in Hok.
    rewrite (delivers_result _ _ Hok).
    unfold retry_events. simpl. now rewrite app_nil_r.
  - destruct (Hfail 0%nat) as [m0 Hm0]; [lia|].
    simpl in Hm0. rewrite Nat.add_0_r in Hm0.
    rewrite (failed_attempt_result _ _ Hm0).
    replace (Z.of_nat a =? retry_attempts config - 1) with false
      by (symmetry; apply Z.eqb_neq; lia).
    rewrite (IH n (S a) (tr ++ attempt_events url a)%list body).
    + rewrite (retry_events_cons url a (S j)). now rewrite <- !app_assoc.
    + lia.
    + lia.
    + intros i Hi. destruct (Hfail (S i)) as [mi Hmi]; [lia|].
      exists mi. rewrite retry_events_cons in Hmi.
      rewrite <- !app_assoc in *.
      replace (S a + i)%nat with (a + S i)%nat by lia. exact Hmi.
    + rewrite retry_events_cons in Hok. rewrite <- !app_assoc in *.
      replace (S a + j)%nat with (a + S j)%nat by lia. exact Hok.
Qed.

Lemma fetch_attempts_shape url remaining :
  forall a tr,
    exists v e m,
      fetch_attempts E config url remaining (Z.of_nat a) tr =
        (Ok (v, e), (tr ++ retry_events url a m)%list)
      /\ (m <= remaining)%nat
      /\ (v = JNull \/ e = None).
Proof.
  induction remaining as [|n IH]; intros a tr.
  - exists JNull, (Some "Max retries exceeded"), 0%nat.
    simpl. unfold ret, retry_events. simpl. rewrite app_nil_r. auto.
  - rewrite fetch_attempts_step. cbv zeta.
    assert (Hone : retry_events url a 1 = attempt_events url a).
    { unfold retry_events. simpl. now rewrite app_nil_r. }
    destruct (attempt_result _) as [body|msg].
    + exists body, None, 1%nat. rewrite Hone. repeat split; auto; lia.
    + destruct (Z.eqb _ _).
      * exists JNull, (Some msg), 1%nat. rewrite Hone. repeat split; auto; lia.
      * destruct (IH (S a) (tr ++ attempt_events url a)%list)
          as (v & e & m & Hrun & Hm & Hor).
        exists v, e, (S m). rewrite Hrun, retry_events_cons, <- app_assoc.
        repeat split; auto; lia.
Qed.

(** X1: when the first [j] attempts of a fetch fail and attempt [j + 1] is
    answered with status 200 and a JSON body, with [j] below the retry
    count, the fetcher returns that body without an error after exactly
    [j + 1] requests; the remaining attempts are not made. *)
Theorem fetch_succeeds_after_failures endpoint tr j body :
  let url := sidecar_endpoint config ++ endpoint in
  (Z.of_nat j < retry_attempts config) ->
  (forall i, (i < j)%nat ->
     exists msg,
       failed_attempt
         (requests_get E (tr ++ retry_events url 0 i ++ sleep_before i)%list url)
         msg) ->
  delivers
    (requests_get E (tr ++ retry_events url 0 j ++ sleep_before j)%list url)
    body ->
  _fetch_sidecar_data E config endpoint tr =
    (Ok (body, None), (tr ++ retry_events url 0 (S j))%list)
  /\ List.length (filter is_get (retry_events url 0 (S j))) = S j
  /\ filter is_sleep (retry_events url 0 (S j)) = repeat (EvSleep 2) j.
Proof.
  intros url Hj Hfail Hok. repeat split.
  - unfold _fetch_sidecar_data.
    apply (fetch_attempts_delivers url j (Z.to_nat (retry_attempts config))
             0%nat tr body); try assumption; simpl; lia.
  - apply retry_events_gets.
  - rewrite retry_events_sleeps. f_equal. lia.
Qed.

(** X2: whatever the server does, a fetch never raises and extends the
    history by the requests of some number [m] of attempts, [m] at most
    the retry count: [m] requests, a sleep of 2 seconds between two
    requests and nowhere else.  It returns a payload without an error or
    an error without a payload. *)
Theorem fetch_requests_bounded endpoint tr :
  let url := sidecar_endpoint config ++ endpoint in
  exists v e m,
    _fetch_sidecar_data E config endpoint tr =
      (Ok (v, e), (tr ++ retry_events url 0 m)%list)
    /\ (Z.of_nat m <= Z.max 0 (retry_attempts config))
    /\ List.length (filter is_get (retry_events url 0 m)) = m
    /\ filter is_sleep (retry_events url 0 m) = repeat (EvSleep 2) (m - 1)
    /\ (v = JNull \/ e = None).
Proof.
  intros url. unfold _fetch_sidecar_data. fold url.
  destruct (fetch_attempts_shape url (Z.to_nat (retry_attempts config)) 0%nat tr)
    as (v & e & m & Hrun & Hm & Hor).
  exists v, e, m. repeat split.
  - exact Hrun.
  - lia.
  - apply retry_events_gets.
  - apply retry_events_sleeps.
  - exact Hor.
Qed.

End FetcherBounds.

Lemma fetch_succeeds_after_failures_witness :
  _fetch_sidecar_data Outage.env_flaky Scenario.cfg "/blocks/head" [] =
  (Ok (Scenario.sidecar_block_10, None),
   [ EvGet "http://sidecar/blocks/head"; EvSleep 2;
     EvGet "http://sidecar/blocks/head"; EvSleep 2;
     EvGet "http://sidecar/blocks/head" ]).
Proof.
  refine (proj1 (fetch_succeeds_after_failures Outage.env_flaky Scenario.cfg
                   "/blocks/head" [] 2 Scenario.sidecar_block_10 _ _ _)).
  - simpl. lia.
  - intros i Hi. exists "HTTP 500: boom".
    destruct i as [|[|i]]; [| |lia];
      apply (failed_status (mkResponse 500 "boom" (Threw "Expecting value")));
      simpl; lia.
  - eexists. repeat split.
Defined.

(** ** The node fetcher and the fetch errors of the validator *)

Lemma retry_events_no_rpc url a n : filter is_rpc (retry_events url a n) = [].
Proof.
  revert a. induction n as [|n IH]; intros a; [reflexivity|].
  rewrite retry_events_cons, filter_app, IH.
  unfold attempt_events, sleep_before. now destruct (0 <? a)%nat.
Qed.

Lemma retry_events_no_decode url a n :
  filter is_decode (retry_events url a n) = [].
Proof.
  revert a. induction n as [|n IH]; intros a; [reflexivity|].
  rewrite retry_events_cons, filter_app, IH.
  unfold attempt_events, sleep_before. now destruct (0 <? a)%nat.
Qed.

Lemma failed_attempt_functional o m1 m2 :
  failed_attempt o m1 -> failed_attempt o m2 -> m1 = m2.
Proof.
  intros H1 H2. apply failed_attempt_result in H1, H2. congruence.
Qed.

Section FetchErrors.

Variable E : Environment.
Variable config : TestConfig.

(** X3: a node call is made exactly once and never raises.  An exception
    of the client becomes the error text; a response that is an object
    gives its [result] field, or [None] when it has none, and no error. *)
Theorem rpc_fetch_single_call method params tr :
  exists v e,
    _fetch_substrate_rpc E method params tr =
      (Ok (v, e), (tr ++ [EvRpc method params])%list)
    /\ (v = JNull \/ e = None)
    /\ (forall msg,
          rpc_request E tr method params = Threw msg ->
          v = JNull /\ e = Some msg)
    /\ (forall fields,
          rpc_request E tr method params = Returned (JObj fields) ->
          e = None /\ Py.get (JObj fields) "result" = Ok v).
Proof.
  unfold _fetch_substrate_rpc, bind, call_rpc, ret.
  destruct (rpc_request E tr method params) as [[| | | | |fields]|msg];
    eexists _, _; (split; [reflexivity|]);
    (split; [auto|]); (split; [intros m Hm; try discriminate Hm|]);
    try (intros f Hf; discriminate Hf).
  - intros f Hf. injection Hf as <-. split; [reflexivity|].
    unfold Py.get, Py.get_default. now destruct (Py.lookup "result" fields).
  - injection Hm as <-. auto.
Qed.

(** X5: with a retry count [k >= 1], when every attempt to fetch the
    block fails with an error text that is not empty, the validator
    returns [false] after the [k] requests and never calls the node. *)
Theorem check_block_fails_on_fetch_error block_identifier tr :
  let url := sidecar_endpoint config ++ "/blocks/" ++ Py.str_of_Z block_identifier in
  let k := Z.to_nat (retry_attempts config) in
  1 <= retry_attempts config ->
  (forall j, (j < k)%nat ->
     exists msg,
       failed_attempt
         (requests_get E (tr ++ retry_events url 0 j ++ sleep_before j)%list url)
         msg
       /\ msg <> "") ->
  _check_block E config block_identifier tr =
    (Ok false, (tr ++ retry_events url 0 k)%list)
  /\ filter is_rpc (retry_events url 0 k) = []
  /\ filter is_decode (retry_events url 0 k) = [].
Proof.
  intros url k Hk Hfail. repeat split.
  - destruct (fetch_attempts_all_fail E config url k 0%nat tr) as (msg & Hm & Hrun).
    + lia.
    + subst k. simpl. lia.
    + intros j Hj. destruct (Hfail j Hj) as (m & Hfm & _). eauto.
    + destruct (Hfail (k - 1)%nat) as (m & Hfm & Hne); [lia|].
      simpl in Hm. rewrite (failed_attempt_functional _ _ _ Hm Hfm) in Hrun.
      change (Z.of_nat 0) with 0 in Hrun.
      unfold _check_block, bind at 1, _fetch_sidecar_data. fold url k.
      rewrite Hrun. unfold error_set.
      destruct (String.eqb_spec m ""); [contradiction|]. reflexivity.
  - apply retry_events_no_rpc.
  - apply retry_events_no_decode.
Qed.

(** X6: the fetch error is tested for truth, not for presence: when the
    attempts fail and the last one ends with an exception whose text is
    empty, the validator takes the fetch for a success and raises
    [AttributeError] on the absent payload. *)
Theorem check_block_raises_on_silent_error block_identifier tr :
  let url := sidecar_endpoint config ++ "/blocks/" ++ Py.str_of_Z block_identifier in
  let k := Z.to_nat (retry_attempts config) in
  1 <= retry_attempts config ->
  (forall j, (j < k)%nat ->
     exists msg,
       failed_attempt
         (requests_get E (tr ++ retry_events url 0 j ++ sleep_before j)%list url)
         msg) ->
  requests_get E
    (tr ++ retry_events url 0 (k - 1) ++ sleep_before (k - 1))%list url =
    Threw "" ->
  _check_block E config block_identifier tr =
    (Raise AttributeError, (tr ++ retry_events url 0 k)%list).
Proof.
  intros url k Hk Hfail Hlast.
  destruct (fetch_attempts_all_fail E config url k 0%nat tr) as (msg & Hm & Hrun).
  - lia.
  - subst k. simpl. lia.
  - exact Hfail.
  - simpl in Hm. rewrite Hlast in Hm.
    rewrite (failed_attempt_functional _ _ _ Hm (failed_request "")) in Hrun.
    change (Z.of_nat 0) with 0 in Hrun.
    unfold _check_block, bind at 1, _fetch_sidecar_data. fold url k.
    rewrite Hrun. reflexivity.
Qed.

(** X7: when the Sidecar delivered the block with its hash and the node
    call [chain_getBlock] fails with an exception, the validator returns
    [false] right after that one call: nothing is decoded or compared. *)
Theorem check_block_fails_on_rpc_error block_identifier tr fields sidecar_error
    tr1 block_hash msg :
  _fetch_sidecar_data E config ("/blocks/" ++ Py.str_of_Z block_identifier) tr =
    (Ok (JObj fields, sidecar_error), tr1) ->
  error_set sidecar_error = false ->
  Py.lookup "hash" fields = Some block_hash ->
  Py.truthy block_hash = true ->
  rpc_request E tr1 "chain_getBlock" [block_hash] = Threw msg ->
  msg <> "" ->
  _check_block E config block_identifier tr =
    (Ok false, (tr1 ++ [EvRpc "chain_getBlock" [block_hash]])%list).
Proof.
  intros Hf He Hh Ht Hrpc Hne.
  unfold _check_block, bind at 1. rewrite Hf, He.
  unfold bind at 1, lift, Py.get, Py.get_default. rewrite Hh, Ht. cbn [negb].
  unfold bind at 1, _fetch_substrate_rpc, bind at 1, call_rpc. rewrite Hrpc.
  unfold ret, error_set. destruct (String.eqb_spec msg ""); [contradiction|].
  reflexivity.
Qed.

(** X8: when the node answers [chain_getBlock] with an object without
    [result], or with a null result, as for a block it does not have, the
    validator does not return [false]: with a readable Sidecar block
    number, reading the node header raises [TypeError]. *)
Theorem check_block_raises_on_unknown_block block_identifier tr fields
    sidecar_error tr1 block_hash response n :
  _fetch_sidecar_data E config ("/blocks/" ++ Py.str_of_Z block_identifier) tr =
    (Ok (JObj fields, sidecar_error), tr1) ->
  error_set sidecar_error = false ->
  Py.lookup "hash" fields = Some block_hash ->
  Py.truthy block_hash = true ->
  rpc_request E tr1 "chain_getBlock" [block_hash] = Returned (JObj response) ->
  Py.get (JObj response) "result" = Ok JNull ->
  (v <-- Py.get (JObj fields) "number" ;; Py.int v)%res = Ok n ->
  _check_block E config block_identifier tr =
    (Raise TypeError, (tr1 ++ [EvRpc "chain_getBlock" [block_hash]])%list).
Proof.
  intros Hf He Hh Ht Hrpc Hres Hn.
  unfold _check_block, bind at 1. rewrite Hf, He.
  unfold bind at 1, lift, Py.get, Py.get_default. rewrite Hh, Ht. cbn [negb].
  unfold bind at 1, _fetch_substrate_rpc, bind at 1, call_rpc. rewrite Hrpc.
  unfold ret. cbn [error_set].
  assert (Hv : match Py.lookup "result" response with
               | Some v => v
               | None => JNull
               end = JNull).
  { unfold Py.get, Py.get_default in Hres.
    destruct (Py.lookup "result" response); congruence. }
  rewrite Hv.
  unfold bind at 1, build_comparisons, bind at 1, lift, base_comparisons.
  fold (Py.get_default (JObj fields) "number" JNull).
  fold (Py.get (JObj fields) "number").
  destruct (Py.get (JObj fields) "number") as [v|]; [|discriminate Hn].
  cbn [rbind] in *. rewrite Hn. reflexivity.
Qed.

End FetchErrors.

Lemma check_block_fails_on_fetch_error_witness :
  _check_block Scenario.env_down Scenario.cfg 10 [] =
  (Ok false,
   [ EvGet "http://sidecar/blocks/10"; EvSleep 2;
     EvGet "http://sidecar/blocks/10"; EvSleep 2;
     EvGet "http://sidecar/blocks/10" ]).
Proof.
  refine (proj1 (check_block_fails_on_fetch_error Scenario.env_down
                   Scenario.cfg 10 [] _ _)).
  - simpl. lia.
  - intros j _. exists "HTTP 500: boom". split; [|discriminate].
    apply (failed_status (mkResponse 500 "boom" (Threw "Expecting value"))).
    simpl. lia.
Defined.

Lemma check_block_raises_on_silent_error_witness :
  _check_block Outage.env_silent Scenario.cfg 10 [] =
  (Raise AttributeError,
   [ EvGet "http://sidecar/blocks/10"; EvSleep 2;
     EvGet "http://sidecar/blocks/10"; EvSleep 2;
     EvGet "http://sidecar/blocks/10" ]).
Proof.
  refine (check_block_raises_on_silent_error Outage.env_silent Scenario.cfg
            10 [] _ _ eq_refl).
  - simpl. lia.
  - intros j _. exists "". apply failed_request.
Defined.

Lemma check_block_fails_on_rpc_error_witness :
  _check_block Outage.env_rpc_down Scenario.cfg 10 [] =
  (Ok false,
   [EvGet "http://sidecar/blocks/10"; EvRpc "chain_getBlock" [JStr "0xh10"]]).
Proof.
  refine (check_block_fails_on_rpc_error Outage.env_rpc_down Scenario.cfg 10 []
            _ None _ (JStr "0xh10") "Connection closed"
            eq_refl eq_refl eq_refl eq_refl eq_refl _).
  discriminate.
Defined.

Lemma check_block_raises_on_unknown_block_witness :
  _check_block Outage.env_forked Scenario.cfg 10 [] =
  (Raise TypeError,
   [EvGet "http://sidecar/blocks/10"; EvRpc "chain_getBlock" [JStr "0xdead"]]).
Proof.
  exact (check_block_raises_on_unknown_block Outage.env_forked Scenario.cfg 10
           [] _ None _ (JStr "0xdead") _ 10
           eq_refl eq_refl eq_refl eq_refl eq_refl eq_refl eq_refl).
Defined.

(** ** The run driver and the entry point *)

Section Driver.

Variable E : Environment.
Variable config : TestConfig.

Lemma run_tests_success tr tr' :
  run_tests E config tr = (Ok true, tr')
  <-> exists tr0 tr1 tr2 tr3,
        _connect_substrate E config tr = (Ok true, tr0)
        /\ test_node_version E config tr0 = (Ok true, tr1)
        /\ test_runtime_version E config tr1 = (Ok true, tr2)
        /\ test_head_block E config tr2 = (Ok true, tr3)
        /\ test_last_n_blocks_transactions E config
             (num_blocks_to_test config) tr3 = (Ok true, tr').
Proof.
  unfold run_tests. split.
  - intros H. step_bind H. destruct r; cbn [negb] in H;
      [|unfold ret in H; discriminate H].
    step_bind H. unfold ret in H. injection H as Hs <-.
    unfold run_checks in Hc0.
    step_bind Hc0. step_bind Hc0. step_bind Hc0. step_bind Hc0.
    unfold ret in Hc0. injection Hc0 as <- <-.
    rewrite summarize_all in Hs. simpl in Hs.
    rewrite andb_true_r in Hs.
    apply andb_true_iff in Hs as [-> Hs].
    apply andb_true_iff in Hs as [-> Hs].
    apply andb_true_iff in Hs as [-> ->].
    eauto 10.
  - intros (tr0 & tr1 & tr2 & tr3 & Hc & H1 & H2 & H3 & H4).
    unfold bind at 1. rewrite Hc. cbn [negb].
    unfold bind at 1, run_checks, bind at 1. rewrite H1.
    unfold bind at 1. rewrite H2. unfold bind at 1. rewrite H3.
    unfold bind at 1. rewrite H4. reflexivity.
Qed.

(** X4: when the node connection fails, the run returns [false] and the
    process exits with status 1 after the connection attempt alone: no
    check runs, nothing is requested from the Sidecar or the node. *)
Theorem run_aborts_without_connection tr msg :
  substrate_connect E tr (substrate_endpoint config) = Threw msg ->
  run_tests E config tr =
    (Ok false, (tr ++ [EvConnect (substrate_endpoint config)])%list)
  /\ main E config tr =
     (1, (tr ++ [EvConnect (substrate_endpoint config)])%list).
Proof.
  intros H.
  assert (Hrun : run_tests E config tr =
                 (Ok false, (tr ++ [EvConnect (substrate_endpoint config)])%list)).
  { unfold run_tests, bind, _connect_substrate. now rewrite H. }
  split; [exact Hrun|]. unfold main. now rewrite Hrun.
Qed.

(** X9: the exit status is 0 or 1, whatever happens, also when a check
    raises; it is 0 exactly when the connection succeeded and the four
    checks, run in order, each returned [True]. *)
Theorem main_exit_status tr :
  (fst (main E config tr) = 0 \/ fst (main E config tr) = 1)
  /\ (fst (main E config tr) = 0
      <-> exists tr0 tr1 tr2 tr3 tr',
            _connect_substrate E config tr = (Ok true, tr0)
            /\ test_node_version E config tr0 = (Ok true, tr1)
            /\ test_runtime_version E config tr1 = (Ok true, tr2)
            /\ test_head_block E config tr2 = (Ok true, tr3)
            /\ test_last_n_blocks_transactions E config
                 (num_blocks_to_test config) tr3 = (Ok true, tr')).
Proof.
  unfold main. split.
  - destruct (run_tests E config tr) as [[[|]|e] tr']; simpl; auto.
  - split.
    + intros H.
      destruct (run_tests E config tr) as [[[|]|e] tr'] eqn:Hrun;
        simpl in H; try discriminate H.
      apply run_tests_success in Hrun as (tr0 & tr1 & tr2 & tr3 & Hrun).
      eauto 10.
    + intros (tr0 & tr1 & tr2 & tr3 & tr' & Hrun).
      assert (H : run_tests E config tr = (Ok true, tr')).
      { apply run_tests_success. eauto 10. }
      now rewrite H.
Qed.

End Driver.

Lemma run_aborts_without_connection_witness :
  run_tests Outage.env_offline Scenario.cfg [] =
    (Ok false, [EvConnect "ws://node"])
  /\ main Outage.env_offline Scenario.cfg [] = (1, [EvConnect "ws://node"]).
Proof.
  exact (run_aborts_without_connection Outage.env_offline Scenario.cfg []
           "Connection refused" eq_refl).
Defined.

(** ** Texts of integers *)

Lemma to_int_proper z : Z.to_int z <> Decimal.Pos Decimal.Nil
                        /\ Z.to_int z <> Decimal.Neg Decimal.Nil.
Proof.
  destruct z as [|p|p]; simpl; split; try discriminate;
    intros H; injection H as H; exact (DecimalPos.Unsigned.to_uint_nonnil p H).
Qed.

Lemma str_of_Z_inj a b : Py.str_of_Z a = Py.str_of_Z b -> a = b.
Proof.
  unfold Py.str_of_Z. intros H. apply DecimalZ.to_int_inj.
  destruct (to_int_proper a) as [Ha1 Ha2], (to_int_proper b) as [Hb1 Hb2].
  pose proof (NilZero.isi (Z.to_int a) Ha1 Ha2) as Ia.
  pose proof (NilZero.isi (Z.to_int b) Hb1 Hb2) as Ib.
  rewrite H in Ia. congruence.
Qed.

(** ** The named checks *)

Section NamedChecks.

Variable E : Environment.
Variable config : TestConfig.

Lemma fetch_substrate_rpc_object method params tr response v :
  rpc_request E tr method params = Returned (JObj response) ->
  Py.get (JObj response) "result" = Ok v ->
  _fetch_substrate_rpc E method params tr =
  (Ok (v, None), (tr ++ [EvRpc method params])%list).
Proof.
  intros Hrpc Hres. unfold _fetch_substrate_rpc, bind, call_rpc, ret.
  rewrite Hrpc. unfold Py.get, Py.get_default in Hres.
  destruct (Py.lookup "result" response); injection Hres as <-; reflexivity.
Qed.

(** X10: when the node answers [system_version] and the Sidecar
    delivers its version record, the Node Info check returns the equality
    of the record's [clientVersion] and the node's result.  Two texts pass
    exactly when they are the same; and the check passes when both are
    absent. *)
Theorem node_version_verdict tr response rpc_version fields sidecar_error tr2
    client_version :
  rpc_request E tr "system_version" [] = Returned (JObj response) ->
  Py.get (JObj response) "result" = Ok rpc_version ->
  _fetch_sidecar_data E config "/node/version"
    (tr ++ [EvRpc "system_version" []])%list =
    (Ok (JObj fields, sidecar_error), tr2) ->
  error_set sidecar_error = false ->
  Py.get (JObj fields) "clientVersion" = Ok client_version ->
  test_node_version E config tr = (Ok (Py.eq client_version rpc_version), tr2)
  /\ (forall a b,
        client_version = JStr a -> rpc_version = JStr b ->
        (test_node_version E config tr = (Ok true, tr2) <-> a = b))
  /\ (client_version = JNull -> rpc_version = JNull ->
      test_node_version E config tr = (Ok true, tr2)).
Proof.
  intros Hrpc Hres Hf He Hcv.
  assert (Hrun : test_node_version E config tr =
                 (Ok (Py.eq client_version rpc_version), tr2)).
  { unfold test_node_version, bind at 1.
    rewrite (fetch_substrate_rpc_object _ _ _ _ _ Hrpc Hres). cbn [error_set].
    unfold bind at 1. rewrite Hf, He.
    unfold bind, lift. rewrite Hcv. unfold ret.
    now destruct (Py.eq client_version rpc_version). }
  split; [exact Hrun|]. split.
  - intros a b -> ->. rewrite Hrun. simpl. split.
    + intros H. injection H as H. now apply String.eqb_eq.
    + intros ->. now rewrite String.eqb_refl.
  - intros -> ->. exact Hrun.
Qed.

(** X11: the Runtime Version check compares the spec and transaction
    versions as texts: a Sidecar that gives them as decimal texts and a
    node that gives them as numbers pass when the spec names are the same
    text and the numbers are the same, and fail when a number differs. *)
Theorem runtime_version_compares_texts tr fields sidecar_error tr1 response
    runtime name spec_version spec_version' tx_version tx_version' :
  _fetch_sidecar_data E config "/runtime/spec" tr =
    (Ok (JObj fields, sidecar_error), tr1) ->
  error_set sidecar_error = false ->
  rpc_request E tr1 "state_getRuntimeVersion" [] = Returned (JObj response) ->
  Py.lookup "result" response = Some (JObj runtime) ->
  Py.lookup "specName" fields = Some (JStr name) ->
  Py.lookup "specName" runtime = Some (JStr name) ->
  Py.lookup "specVersion" fields = Some (JStr (Py.str_of_Z spec_version)) ->
  Py.lookup "specVersion" runtime = Some (JInt spec_version') ->
  Py.lookup "transactionVersion" fields = Some (JStr (Py.str_of_Z tx_version)) ->
  Py.lookup "transactionVersion" runtime = Some (JInt tx_version') ->
  exists verdict,
    test_runtime_version E config tr =
      (Ok verdict, (tr1 ++ [EvRpc "state_getRuntimeVersion" []])%list)
    /\ (verdict = true <->
        spec_version = spec_version' /\ tx_version = tx_version').
Proof.
  intros Hf He Hrpc Hres Hn1 Hn2 Hs1 Hs2 Ht1 Ht2.
  eexists. split.
  - unfold test_runtime_version, bind at 1. rewrite Hf, He.
    unfold bind at 1.
    rewrite (fetch_substrate_rpc_object _ _ _ _ (JObj runtime) Hrpc)
      by (unfold Py.get, Py.get_default; now rewrite Hres).
    cbn [error_set]. unfold bind, lift, Py.get, Py.get_default.
    rewrite Hn1, Hn2, Hs1, Hs2, Ht1, Ht2. cbn [rbind]. unfold ret.
    reflexivity.
  - unfold compare_all, forallb, str. cbn [Py.eq].
    rewrite String.eqb_refl, andb_true_r. cbn [andb].
    rewrite andb_true_iff, !String.eqb_eq.
    split; intros [H1 H2]; split;
      (apply str_of_Z_inj; assumption) || (f_equal; assumption).
Qed.

End NamedChecks.

Lemma node_version_verdict_witness :
  test_node_version Scenario.env Scenario.cfg [] =
  (Ok true, [EvRpc "system_version" []; EvGet "http://sidecar/node/version"]).
Proof.
  exact (proj1 (node_version_verdict Scenario.env Scenario.cfg [] _
                  (JStr "1.2.3") _ None _ (JStr "1.2.3")
                  eq_refl eq_refl eq_refl eq_refl eq_refl)).
Defined.

Lemma runtime_version_compares_texts_witness :
  exists verdict,
    test_runtime_version Scenario.env Scenario.cfg [] =
      (Ok verdict,
       [EvGet "http://sidecar/runtime/spec"; EvRpc "state_getRuntimeVersion" []])
    /\ (verdict = true <-> 100 = 100 /\ 1 = 1).
Proof.
  exact (runtime_version_compares_texts Scenario.env Scenario.cfg [] _ None _ _
           _ "node" 100 100 1 1
           eq_refl eq_refl eq_refl eq_refl eq_refl eq_refl eq_refl eq_refl
           eq_refl eq_refl).
Defined.

(** ** What the Head Block check leaves out *)

Section HeadBlock.

Variable E : Environment.
Variable config : TestConfig.

Lemma fetch_substrate_rpc_shape method params tr :
  exists v e,
    _fetch_substrate_rpc E method params tr =
    (Ok (v, e), (tr ++ [EvRpc method params])%list).
Proof.
  unfold _fetch_substrate_rpc, bind, call_rpc, ret.
  destruct (rpc_request E tr method params) as [[| | | | |fields]|msg]; eauto.
Qed.

Lemma head_block_calls tr r tr' :
  test_head_block E config tr = (r, tr') ->
  exists m calls,
    tr' = (tr ++ retry_events (sidecar_endpoint config ++ "/blocks/head") 0 m
              ++ calls)%list
    /\ (Z.of_nat m <= Z.max 0 (retry_attempts config))
    /\ filter is_decode tr' = filter is_decode tr
    /\ (calls = []
        \/ calls = [EvRpc "chain_getFinalizedHead" []]
        \/ exists h, calls = [EvRpc "chain_getFinalizedHead" [];
                              EvRpc "chain_getBlock" [h]]).
Proof.
  unfold test_head_block, bind at 1, _fetch_sidecar_data.
  destruct (fetch_attempts_shape E config
              (sidecar_endpoint config ++ "/blocks/head")
              (Z.to_nat (retry_attempts config)) 0%nat tr)
    as (v & e & m & Hrun & Hm & _).
  change (Z.of_nat 0) with 0 in Hrun. rewrite Hrun.
  assert (Hdec : forall calls,
             filter is_decode calls = [] ->
             filter is_decode
               (tr ++ retry_events (sidecar_endpoint config ++ "/blocks/head") 0 m
                   ++ calls)%list = filter is_decode tr).
  { intros calls Hc.
    now rewrite !filter_app, retry_events_no_decode, Hc, app_nil_r. }
  destruct (error_set e).
  - unfold ret. intros H. injection H as <- <-.
    exists m, []. rewrite app_nil_r.
    repeat split; [lia | | auto].
    rewrite <- (Hdec [] eq_refl). now rewrite app_nil_r.
  - unfold bind at 1.
    destruct (fetch_substrate_rpc_shape "chain_getFinalizedHead" []
                (tr ++ retry_events (sidecar_endpoint config ++ "/blocks/head")
                         0 m)%list) as (h & e1 & Hh).
    rewrite Hh. destruct (error_set e1).
    + unfold ret. intros H. injection H as <- <-.
      exists m, [EvRpc "chain_getFinalizedHead" []].
      rewrite <- app_assoc. repeat split; [lia | | auto].
      now apply Hdec.
    + unfold bind at 1.
      destruct (fetch_substrate_rpc_shape "chain_getBlock" [h]
                  ((tr ++ retry_events
                            (sidecar_endpoint config ++ "/blocks/head") 0 m)
                     ++ [EvRpc "chain_getFinalizedHead" []])%list)
        as (b & e2 & Hb).
      rewrite Hb.
      assert (Hend :
                exists m0 calls,
                  (((tr ++ retry_events
                             (sidecar_endpoint config ++ "/blocks/head") 0 m)
                      ++ [EvRpc "chain_getFinalizedHead" []])
                     ++ [EvRpc "chain_getBlock" [h]])%list =
                  (tr ++ retry_events
                           (sidecar_endpoint config ++ "/blocks/head") 0 m0
                      ++ calls)%list
                  /\ Z.of_nat m0 <= Z.max 0 (retry_attempts config)
                  /\ filter is_decode
                       (((tr ++ retry_events
                                  (sidecar_endpoint config ++ "/blocks/head")
                                  0 m)
                           ++ [EvRpc "chain_getFinalizedHead" []])
                          ++ [EvRpc "chain_getBlock" [h]])%list =
                     filter is_decode tr
                  /\ (calls = []
                      \/ calls = [EvRpc "chain_getFinalizedHead" []]
                      \/ exists h0,
                          calls = [EvRpc "chain_getFinalizedHead" [];
                                   EvRpc "chain_getBlock" [h0]])).
      { exists m, [EvRpc "chain_getFinalizedHead" [];
                   EvRpc "chain_getBlock" [h]].
        rewrite <- !app_assoc. repeat split; [lia | | eauto].
        now apply Hdec. }
      destruct (error_set e2).
      * unfold ret. intros H. injection H as <- <-. exact Hend.
      * unfold bind, lift, ret.
        match goal with
        | |- context [match ?c with Ok _ => _ | Raise _ => _ end] =>
            destruct c
        end; intros H; injection H as <- <-; exact Hend.
Qed.

(** X12: however it ends, the Head Block check never calls the decoder:
    it extends the history by the requests of one Sidecar fetch, then at
    most two node calls, [chain_getFinalizedHead] first and
    [chain_getBlock] for the hash it returned second.  The extrinsics of
    the head block are counted, not compared. *)
Theorem head_block_never_decodes tr :
  exists m calls,
    snd (test_head_block E config tr) =
      (tr ++ retry_events (sidecar_endpoint config ++ "/blocks/head") 0 m
          ++ calls)%list
    /\ (Z.of_nat m <= Z.max 0 (retry_attempts config))
    /\ filter is_decode (snd (test_head_block E config tr)) =
       filter is_decode tr
    /\ (calls = []
        \/ calls = [EvRpc "chain_getFinalizedHead" []]
        \/ exists h, calls = [EvRpc "chain_getFinalizedHead" [];
                              EvRpc "chain_getBlock" [h]]).
Proof.
  destruct (test_head_block E config tr) as [r tr'] eqn:H.
  exact (head_block_calls tr r tr' H).
Qed.

End HeadBlock.

(** ** The Last-N-Blocks check at its edges *)

Lemma chars_length s :
  List.length (Py.chars s) = String.length s.
Proof.
  unfold Py.chars. rewrite length_map.
  induction s as [|c s IH]; simpl; congruence.
Qed.

Lemma len_iter v n items :
  Py.len v = Ok n -> Py.iter v = Ok items -> n = Z.of_nat (List.length items).
Proof.
  destruct v; simpl; try discriminate; intros Hn Hi;
    injection Hn as <-; injection Hi as <-.
  - now rewrite chars_length.
  - reflexivity.
  - now rewrite length_map.
Qed.

Lemma count_transactions_bounds items :
  forall acc r,
    count_transactions items acc = Ok r ->
    acc <= r <= acc + Z.of_nat (List.length items).
Proof.
  induction items as [|ext items IH]; intros acc r H.
  - simpl in H. injection H as <-. simpl. lia.
  - cbn [count_transactions] in H. step_result H.
    apply IH in H. cbn [List.length]. destruct x; lia.
Qed.

Lemma statistics_of_bounds sidecar_block a n :
  statistics_of sidecar_block = Ok (a, n) -> 0 <= a <= n.
Proof.
  unfold statistics_of. intros H. repeat step_result H.
  injection H as <- <-.
  rewrite (len_iter _ _ _ Hx0 Hx1).
  apply count_transactions_bounds in Hx2. lia.
Qed.

Section LastBlocksEdges.

Variable E : Environment.
Variable config : TestConfig.

Lemma blocks_run_bounds hs tr rs tr' :
  blocks_run E config hs tr rs tr' ->
  0 <= transactions_of rs <= extrinsics_of rs.
Proof.
  induction 1 as [|h hs tr passed added tr1 rs tr2 Hb Hrs IH].
  - unfold transactions_of, extrinsics_of. simpl. lia.
  - assert (Ha : 0 <= fst added <= snd added).
    { destruct Hb as [| |tr3 v e tr4 [a n] _ _ _ Hs]; simpl; try lia.
      now apply statistics_of_bounds in Hs. }
    unfold transactions_of, extrinsics_of in *. simpl. lia.
Qed.

(** X13: whenever the Last-N-Blocks check reaches its summary, the totals
    it reports satisfy 0 <= total_transactions <= total_extrinsics. *)
Theorem statistics_totals_ordered num_blocks tr all_passed total_transactions
    total_extrinsics tr' :
  last_n_blocks_statistics E config num_blocks tr =
    (Ok (Some (all_passed, total_transactions, total_extrinsics)), tr') ->
  0 <= total_transactions <= total_extrinsics.
Proof.
  unfold last_n_blocks_statistics. intros H.
  step_bind H. destruct r as [sidecar_head head_error].
  destruct (error_set head_error); [unfold ret in H; discriminate H|].
  step_bind H. step_bind H. unfold ret in H. injection H as -> <-.
  apply (blocks_loop_run E config r (Z.to_nat num_blocks) 0%nat) in Hc1
    as (rs & Hrs & Hst).
  injection Hst as _ -> ->.
  apply blocks_run_bounds in Hrs. lia.
Qed.

(** X14: a check of zero blocks, or of a negative number of blocks,
    passes without validating anything: after the head fetch gave a
    readable block number, the check returns [true] and both totals are
    0.  The head is fetched, and its number parsed, all the same. *)
Theorem last_n_blocks_nothing_to_test num_blocks tr sidecar_head head_error tr0
    head_number :
  num_blocks <= 0 ->
  _fetch_sidecar_data E config "/blocks/head" tr =
    (Ok (sidecar_head, head_error), tr0) ->
  error_set head_error = false ->
  (n <-- Py.get sidecar_head "number" ;; Py.int n)%res = Ok head_number ->
  test_last_n_blocks_transactions E config num_blocks tr = (Ok true, tr0)
  /\ last_n_blocks_statistics E config num_blocks tr =
     (Ok (Some (true, 0, 0)), tr0).
Proof.
  intros Hn Hf He Hnum.
  assert (Hst : last_n_blocks_statistics E config num_blocks tr =
                (Ok (Some (true, 0, 0)), tr0)).
  { unfold last_n_blocks_statistics, bind at 1. rewrite Hf, He.
    unfold bind at 1, lift. rewrite Hnum.
    replace (Z.to_nat num_blocks) with 0%nat by lia. reflexivity. }
  split; [|exact Hst].
  unfold test_last_n_blocks_transactions, bind. now rewrite Hst.
Qed.

(** X15: when the head block cannot be fetched (the fetch ends with an
    error text that is not empty), the Last-N-Blocks check returns
    [false] right after that fetch: no block is validated and no node
    call is made. *)
Theorem last_n_blocks_fails_without_head num_blocks tr v msg tr0 :
  _fetch_sidecar_data E config "/blocks/head" tr = (Ok (v, Some msg), tr0) ->
  msg <> "" ->
  test_last_n_blocks_transactions E config num_blocks tr = (Ok false, tr0)
  /\ filter is_rpc tr0 = filter is_rpc tr.
Proof.
  intros Hf Hne. split.
  - unfold test_last_n_blocks_transactions, last_n_blocks_statistics,
      bind at 1, bind at 1.
    rewrite Hf. unfold error_set.
    destruct (String.eqb_spec msg ""); [contradiction|]. reflexivity.
  - destruct (fetch_attempts_shape E config
                (sidecar_endpoint config ++ "/blocks/head")
                (Z.to_nat (retry_attempts config)) 0%nat tr)
      as (v' & e' & m & Hrun & _).
    change (Z.of_nat 0) with 0 in Hrun.
    unfold _fetch_sidecar_data in Hf. rewrite Hf in Hrun.
    injection Hrun as _ _ ->.
    now rewrite filter_app, retry_events_no_rpc, app_nil_r.
Qed.

End LastBlocksEdges.

Lemma statistics_totals_ordered_witness : 0 <= 2 <= 5.
Proof.
  refine (statistics_totals_ordered Scenario.env Scenario.cfg 3 [] false 2 5
            Scenario.trace_last_3 _).
  vm_compute. reflexivity.
Defined.

Lemma last_n_blocks_nothing_to_test_witness :
  test_last_n_blocks_transactions Scenario.env Scenario.cfg 0 [] =
    (Ok true, Scenario.trace_head)
  /\ last_n_blocks_statistics Scenario.env Scenario.cfg 0 [] =
     (Ok (Some (true, 0, 0)), Scenario.trace_head).
Proof.
  refine (last_n_blocks_nothing_to_test Scenario.env Scenario.cfg 0 []
            Scenario.sidecar_block_10 None Scenario.trace_head 10
            _ eq_refl eq_refl eq_refl).
  lia.
Defined.

Lemma last_n_blocks_fails_without_head_witness :
  test_last_n_blocks_transactions Scenario.env_down Scenario.cfg 3 [] =
  (Ok false,
   [ EvGet "http://sidecar/blocks/head"; EvSleep 2;
     EvGet "http://sidecar/blocks/head"; EvSleep 2;
     EvGet "http://sidecar/blocks/head" ]).
Proof.
  refine (proj1 (last_n_blocks_fails_without_head Scenario.env_down
                   Scenario.cfg 3 [] JNull "HTTP 500: boom" _ eq_refl _)).
  discriminate.
Defined.

(** ** Names that cannot match *)

Lemma has_underscore_lower s :
  has_underscore (Py.lower_str s) = has_underscore s.
Proof.
  induction s as [|c s IH]; simpl; [reflexivity|].
  now rewrite lower_char_underscore, IH.
Qed.

Lemma has_underscore_strip s :
  has_underscore (Py.strip_underscores s) = false.
Proof.
  induction s as [|c s IH]; simpl; [reflexivity|].
  destruct (c =? "_")%char eqn:Hc; simpl; [exact IH|].
  now rewrite Hc, IH.
Qed.

(** X16: a Sidecar pallet or method name that contains an underscore
    matches no node name at all: the Sidecar side keeps its underscores
    and the node side has none left. *)
Theorem underscore_name_never_matches label sidecar_name rpc_name c :
  has_underscore sidecar_name = true ->
  name_comparison label (JStr sidecar_name) (JStr rpc_name) = Ok c ->
  compare_all [c] = false.
Proof.
  intros Hu Hc. simpl in Hc. injection Hc as <-.
  simpl. rewrite andb_true_r. apply String.eqb_neq. intros Heq.
  assert (H : has_underscore (Py.lower_str sidecar_name) = false).
  { rewrite Heq. apply has_underscore_strip. }
  rewrite has_underscore_lower in H. congruence.
Qed.

Lemma underscore_name_never_matches_witness :
  compare_all
    [("Extrinsics - Pallet", JStr "parachain_system", JStr "parachainsystem")] =
  false.
Proof.
  exact (underscore_name_never_matches "Extrinsics - Pallet" "parachain_system"
           "ParachainSystem" _ eq_refl eq_refl).
Defined.

(** ** The comparison list: order of decoding, counts, overruns *)

Lemma compare_all_app a b :
  compare_all (a ++ b) = compare_all a && compare_all b.
Proof. apply forallb_app. Qed.

Lemma firstn_by_nth (A : Type) (used l : list A) :
  (forall j x, nth_error used j = Some x -> nth_error l j = Some x) ->
  used = firstn (List.length used) l.
Proof.
  revert l. induction used as [|u used IH]; intros l H; [reflexivity|].
  destruct l as [|x l].
  - specialize (H 0%nat u eq_refl). discriminate H.
  - simpl. f_equal.
    + specialize (H 0%nat u eq_refl). simpl in H. congruence.
    + apply IH. intros j y Hj. apply (H (S j) y Hj).
Qed.

Lemma base_count_mismatch sidecar_data rpc_block base exts nodes :
  base_comparisons sidecar_data rpc_block = Ok base ->
  Py.get_default sidecar_data "extrinsics" (JArr []) = Ok (JArr exts) ->
  node_extrinsics rpc_block = Ok (JArr nodes) ->
  List.length exts <> List.length nodes ->
  compare_all base = false.
Proof.
  unfold base_comparisons, node_extrinsics. intros H Hexts Hnodes Hne.
  repeat step_result H. injection H as <-.
  cbn [rbind] in Hnodes.
  injection Hexts as ->.
  match goal with
  | Ha : Py.getitem _ "extrinsics" = Ok ?x |- _ =>
      is_var x; rewrite Ha in Hnodes; injection Hnodes as ->
  end.
  repeat match goal with
         | Ha : Py.len (JArr _) = Ok _ |- _ => simpl in Ha; injection Ha as <-
         end.
  simpl.
  replace (Z.of_nat (List.length exts) =? Z.of_nat (List.length nodes))
    with false by (symmetry; apply Z.eqb_neq; lia).
  now rewrite !andb_false_r.
Qed.

Section ComparisonList.

Variable E : Environment.

Lemma extrinsic_loop_inv rpc_block exts :
  forall i comparisons tr cs tr',
    extrinsic_loop E rpc_block i exts comparisons tr = (Ok cs, tr') ->
    exists rest used,
      cs = (comparisons ++ rest)%list
      /\ tr' = (tr ++ map EvDecode used)%list
      /\ List.length used = List.length exts
      /\ (forall j nx, nth_error used j = Some nx ->
            node_extrinsic rpc_block (i + j) = Ok nx).
Proof.
  induction exts as [|ext exts IH]; intros i comparisons tr cs tr' H.
  - simpl in H. unfold ret in H. injection H as <- <-.
    exists [], []. rewrite !app_nil_r. repeat split.
    intros [|j] nx Hj; discriminate Hj.
  - cbn [extrinsic_loop] in H. step_bind H.
    apply extrinsic_step_inv in Hc
      as (nx & d & names & signer & Hn & _ & _ & _ & -> & ->).
    apply IH in H as (rest & used & -> & -> & Hlen & Hused).
    exists ((names ++ signer) ++ rest)%list, (nx :: used).
    rewrite <- !app_assoc. repeat split.
    + simpl. now rewrite Hlen.
    + intros [|j] y Hj; simpl in Hj.
      * injection Hj as <-. now rewrite Nat.add_0_r.
      * replace (i + S j)%nat with (S i + j)%nat by lia. now apply Hused.
Qed.

Lemma build_comparisons_inv sidecar_data rpc_block tr cs tr' :
  build_comparisons E sidecar_data rpc_block tr = (Ok cs, tr') ->
  exists base rest exts used,
    base_comparisons sidecar_data rpc_block = Ok base
    /\ sidecar_extrinsics sidecar_data = Ok exts
    /\ cs = (base ++ rest)%list
    /\ tr' = (tr ++ map EvDecode used)%list
    /\ List.length used = List.length exts
    /\ (forall j nx, nth_error used j = Some nx ->
          node_extrinsic rpc_block j = Ok nx).
Proof.
  unfold build_comparisons. intros H.
  step_bind H. unfold lift in Hc. injection Hc as Hbase <-.
  step_bind H. unfold lift in Hc. injection Hc as Hexts <-.
  apply extrinsic_loop_inv in H as (rest & used & -> & -> & Hlen & Hused).
  exists r, rest, r0, used. repeat split; assumption.
Qed.

(** X17: when the comparison list of a block is built, the decoder was
    called exactly once for each Sidecar extrinsic, in order, on the node
    extrinsic of the same index, and nothing else was called; node
    extrinsics beyond the Sidecar's count are never decoded. *)
Theorem decoder_called_once_per_extrinsic sidecar_data rpc_block tr cs tr'
    exts nodes :
  build_comparisons E sidecar_data rpc_block tr = (Ok cs, tr') ->
  sidecar_extrinsics sidecar_data = Ok exts ->
  node_extrinsics rpc_block = Ok (JArr nodes) ->
  (List.length exts <= List.length nodes)%nat
  /\ tr' = (tr ++ map EvDecode (firstn (List.length exts) nodes))%list.
Proof.
  intros H Hexts Hnodes.
  apply build_comparisons_inv in H
    as (base & rest & exts' & used & _ & He & _ & -> & Hlen & Hused).
  rewrite Hexts in He. injection He as <-.
  assert (Hnth : forall j x, nth_error used j = Some x ->
                             nth_error nodes j = Some x).
  { intros j x Hj. apply Hused in Hj.
    rewrite (node_extrinsic_nth _ _ _ Hnodes) in Hj.
    destruct (nth_error nodes j); [now injection Hj as <-|discriminate Hj]. }
  split.
  - rewrite <- Hlen. destruct used as [|u used'] eqn:Hu; [simpl; lia|].
    rewrite <- Hu in *.
    assert (Hlast : nth_error used (List.length used - 1) <> None).
    { apply nth_error_Some. rewrite Hu. simpl. lia. }
    destruct (nth_error used (List.length used - 1)) as [x|] eqn:Hx;
      [|contradiction].
    apply Hnth in Hx.
    assert (List.length used - 1 < List.length nodes)%nat
      by (apply nth_error_Some; congruence).
    lia.
  - rewrite <- Hlen. now rewrite <- (firstn_by_nth _ used nodes Hnth).
Qed.

(** X18: when the Sidecar and the node list different numbers of
    extrinsics for a block and the comparison list is built all the same,
    the node has more of them and the list does not pass: the count
    comparison fails whatever the other fields are. *)
Theorem extrinsics_count_mismatch_fails sidecar_data rpc_block tr cs tr'
    exts nodes :
  build_comparisons E sidecar_data rpc_block tr = (Ok cs, tr') ->
  Py.get_default sidecar_data "extrinsics" (JArr []) = Ok (JArr exts) ->
  node_extrinsics rpc_block = Ok (JArr nodes) ->
  List.length exts <> List.length nodes ->
  compare_all cs = false.
Proof.
  intros H Hexts Hnodes Hne.
  apply build_comparisons_inv in H
    as (base & rest & exts' & used & Hbase & _ & -> & _).
  rewrite compare_all_app.
  now rewrite (base_count_mismatch _ _ _ _ _ Hbase Hexts Hnodes Hne).
Qed.

Lemma extrinsic_loop_overrun rpc_block nodes exts :
  node_extrinsics rpc_block = Ok (JArr nodes) ->
  forall i comparisons tr,
    (i <= List.length nodes)%nat ->
    (List.length nodes < i + List.length exts)%nat ->
    (forall j sidecar_ext extrinsic_rpc,
        nth_error exts j = Some sidecar_ext ->
        nth_error nodes (i + j) = Some extrinsic_rpc ->
        exists decoded_ext names signer,
          (forall h, decode_scale E h extrinsic_rpc = Returned decoded_ext)
          /\ name_comparisons decoded_ext sidecar_ext = Ok names
          /\ signer_comparisons sidecar_ext extrinsic_rpc = Ok signer) ->
    exists tr',
      extrinsic_loop E rpc_block i exts comparisons tr = (Raise IndexError, tr').
Proof.
  intros Hnodes. induction exts as [|ext exts IH];
    intros i comparisons tr Hi Hover Hpairs; [simpl in Hover; lia|].
  cbn [extrinsic_loop]. unfold bind at 1.
  destruct (nth_error nodes i) as [nx|] eqn:Hnx.
  - destruct (Hpairs 0%nat ext nx eq_refl) as (d & names & signer & Hd & Hnm & Hsg).
    { now rewrite Nat.add_0_r. }
    assert (Hn : node_extrinsic rpc_block i = Ok nx).
    { rewrite (node_extrinsic_nth _ _ _ Hnodes), Hnx. reflexivity. }
    rewrite (extrinsic_step_returns E _ _ _ comparisons _ _ _ _ _
               Hn (Hd tr) Hnm Hsg).
    assert (i < List.length nodes)%nat by (apply nth_error_Some; congruence).
    apply IH.
    + lia.
    + simpl in Hover. lia.
    + intros j e x He Hx. apply (Hpairs (S j) e x He).
      now replace (i + S j)%nat with (S i + j)%nat by lia.
  - unfold extrinsic_step, bind at 1, lift.
    rewrite (node_extrinsic_nth _ _ _ Hnodes), Hnx. simpl. eauto.
Qed.

(** X19: when the Sidecar lists more extrinsics for a block than the
    node, the header fields are readable and every node extrinsic
    decodes against the Sidecar extrinsic of its index, the validator
    does not report the different counts: reading the first extrinsic
    that the node lacks raises [IndexError]. *)
Theorem surplus_sidecar_extrinsics_raise sidecar_data rpc_block tr base exts
    nodes :
  base_comparisons sidecar_data rpc_block = Ok base ->
  sidecar_extrinsics sidecar_data = Ok exts ->
  node_extrinsics rpc_block = Ok (JArr nodes) ->
  (List.length nodes < List.length exts)%nat ->
  (forall i sidecar_ext extrinsic_rpc,
      nth_error exts i = Some sidecar_ext ->
      nth_error nodes i = Some extrinsic_rpc ->
      exists decoded_ext names signer,
        (forall h, decode_scale E h extrinsic_rpc = Returned decoded_ext)
        /\ name_comparisons decoded_ext sidecar_ext = Ok names
        /\ signer_comparisons sidecar_ext extrinsic_rpc = Ok signer) ->
  exists tr',
    build_comparisons E sidecar_data rpc_block tr = (Raise IndexError, tr').
Proof.
  intros Hbase Hexts Hnodes Hlt Hpairs.
  unfold build_comparisons, bind at 1, lift at 1. rewrite Hbase.
  unfold bind at 1, lift at 1.
  unfold sidecar_extrinsics in Hexts. rewrite Hexts.
  apply (extrinsic_loop_overrun rpc_block nodes exts Hnodes 0%nat base tr).
  - lia.
  - simpl. lia.
  - exact Hpairs.
Qed.

Lemma extrinsic_loop_text_raises rpc_block s sidecar_ext :
  carries_signature sidecar_ext = true ->
  forall j exts i comparisons tr,
    nth_error exts j = Some sidecar_ext ->
    node_extrinsic rpc_block (i + j) = Ok (JStr s) ->
    exists e tr',
      extrinsic_loop E rpc_block i exts comparisons tr = (Raise e, tr').
Proof.
  intros Hsig. induction j as [|j IH]; intros exts i comparisons tr Hj Hn;
    (destruct exts as [|ext exts]; [discriminate Hj|]); simpl in Hj;
    cbn [extrinsic_loop]; unfold bind at 1.
  - injection Hj as ->. rewrite Nat.add_0_r in Hn.
    destruct (signed_extrinsic_needs_node_object sidecar_ext s Hsig) as [e He].
    unfold extrinsic_step, bind, lift, call_decode. rewrite Hn, He.
    destruct (decode_scale E tr (JStr s)); [|eauto].
    destruct (name_comparisons _ _); eauto.
  - destruct (extrinsic_step E rpc_block i ext comparisons tr) as [[cs|e] tr1];
      [|eauto].
    apply IH; [exact Hj|].
    now replace (S i + j)%nat with (i + S j)%nat by lia.
Qed.

(** X20: the signer of the node side is looked up in the extrinsic as
    the node delivered it, not in its decoded form.  When the node
    delivers the extrinsic of some index as a text (its SCALE bytes in
    hex) and the Sidecar extrinsic of that index carries a signature, no
    comparison list is built: the validator raises. *)
Theorem signed_extrinsic_on_text_raises sidecar_data rpc_block tr exts j
    sidecar_ext s :
  sidecar_extrinsics sidecar_data = Ok exts ->
  nth_error exts j = Some sidecar_ext ->
  carries_signature sidecar_ext = true ->
  node_extrinsic rpc_block j = Ok (JStr s) ->
  exists e tr',
    build_comparisons E sidecar_data rpc_block tr = (Raise e, tr').
Proof.
  intros Hexts Hj Hsig Hn.
  unfold build_comparisons, bind at 1, lift at 1.
  destruct (base_comparisons sidecar_data rpc_block) as [base|e]; [|eauto].
  unfold bind at 1, lift at 1.
  unfold sidecar_extrinsics in Hexts. rewrite Hexts.
  apply (extrinsic_loop_text_raises rpc_block s sidecar_ext Hsig j exts 0%nat
           base tr Hj Hn).
Qed.

End ComparisonList.

Lemma decoder_called_once_per_extrinsic_witness :
  (1 <= 2)%nat
  /\ [EvDecode (Scenario.node_ext "ParachainSystem" "set_validation_data" None)] =
     ([] ++ map EvDecode (firstn 1 Outage.node_exts_8))%list.
Proof.
  refine (decoder_called_once_per_extrinsic Scenario.env
            Outage.sidecar_block_8_short Scenario.node_block_8 []
            Outage.comparisons_8_short _ _ Outage.node_exts_8
            _ eq_refl eq_refl).
  vm_compute. reflexivity.
Defined.

Lemma extrinsics_count_mismatch_fails_witness :
  compare_all Outage.comparisons_8_short = false.
Proof.
  refine (extrinsics_count_mismatch_fails Scenario.env
            Outage.sidecar_block_8_short Scenario.node_block_8 []
            Outage.comparisons_8_short _ _ Outage.node_exts_8
            _ eq_refl eq_refl _).
  - vm_compute. reflexivity.
  - simpl. lia.
Defined.

Lemma surplus_sidecar_extrinsics_raise_witness :
  exists tr',
    build_comparisons Scenario.env Scenario.sidecar_block_8
      Outage.node_block_8_short [] = (Raise IndexError, tr').
Proof.
  refine (surplus_sidecar_extrinsics_raise Scenario.env Scenario.sidecar_block_8
            Outage.node_block_8_short [] _ _
            [Scenario.node_ext "ParachainSystem" "set_validation_data" None]
            eq_refl eq_refl eq_refl _ _).
  - simpl. lia.
  - intros i e nx Hi Hnx.
    destruct i as [|i]; simpl in Hi, Hnx;
      [|destruct i; discriminate Hnx].
    injection Hi as <-. injection Hnx as <-.
    eexists _, _, _.
    split; [intros h; reflexivity | split; reflexivity].
Defined.

Lemma signed_extrinsic_on_text_raises_witness :
  exists e tr',
    build_comparisons Outage.env_hex Scenario.sidecar_block_10
      Outage.node_block_10_hex [] = (Raise e, tr').
Proof.
  exact (signed_extrinsic_on_text_raises Outage.env_hex
           Scenario.sidecar_block_10 Outage.node_block_10_hex []
           Scenario.sidecar_exts_10 1
           (Scenario.sidecar_ext "balances" "transferKeepAlive" (Some "5Alice"))
           "0x450284" eq_refl eq_refl eq_refl eq_refl).
Defined.

Example text_extrinsic_type_error :
  build_comparisons Outage.env_hex Scenario.sidecar_block_10
    Outage.node_block_10_hex [] =
  (Raise TypeError, [EvDecode (JStr "0x280403"); EvDecode (JStr "0x450284")]).
Proof. vm_compute. reflexivity. Qed.

(** ** Decimal texts are read back *)










